(** * User Management API: the request handlers over the user table

    A shallow embedding of [backend/app]: [models.py] (the [users] table),
    [schemas.py] (the pydantic request models), [crud.py] (the session
    calls) and [main.py] (the FastAPI handlers).

    The handlers are programs over the calls they make on the SQLAlchemy
    session.  A program can be run against any store that answers those
    calls; [pg] is the store the application is deployed on: one table
    with a serial primary key, unique indexes on [email] and [username]
    and NOT NULL columns, as [models.User] declares it. *)

From Stdlib Require Import ZArith List String Ascii Bool Lia DecimalString.
From Stdlib Require PrimFloat.
Import ListNotations.

Open Scope string_scope.
Open Scope list_scope.
Open Scope Z_scope.

(** ** Strings *)

(** Python's [needle in hay]. *)
Fixpoint contains (needle hay : string) : bool :=
  String.prefix needle hay
  || match hay with
     | EmptyString => false
     | String _ hay' => contains needle hay'
     end.

Definition lower_ascii (c : ascii) : ascii :=
  let n := nat_of_ascii c in
  if ((65 <=? n)%nat && (n <=? 90)%nat)%bool then ascii_of_nat (n + 32) else c.

(** [str.lower()] on the ASCII letters, which is all the messages of
    [main.py] are made of outside the interpolated values. *)
Fixpoint lower (s : string) : string :=
  match s with
  | EmptyString => EmptyString
  | String c s' => String (lower_ascii c) (lower s')
  end.

(** [str(n)] for a Python [int], as an f-string interpolates it. *)
Definition str_int (n : Z) : string := NilZero.string_of_int (Z.to_int n).

(** Truthiness of an [Optional[str]]: [None] and the empty string are falsy. *)
Definition truthy (v : option string) : bool :=
  match v with
  | Some s => negb (s =? "")%string
  | None => false
  end.

Definition option_eqb {A} (eqb : A -> A -> bool) (a b : option A) : bool :=
  match a, b with
  | Some x, Some y => eqb x y
  | None, None => true
  | _, _ => false
  end.

(** ** models.py *)

Module models.

(** A row of [users].  [email], [username], [is_active] and [created_at]
    are [nullable=False]; [full_name] and [updated_at] are nullable. *)
Record User : Type := mkUser {
  id : Z;
  email : string;
  username : string;
  full_name : option string;
  is_active : bool;
  created_at : Z;
  updated_at : option Z
}.

(** The columns a request can name. *)
Inductive column : Type := c_email | c_username | c_full_name | c_is_active.

Definition column_name (c : column) : string :=
  match c with
  | c_email => "email"
  | c_username => "username"
  | c_full_name => "full_name"
  | c_is_active => "is_active"
  end.

(** What the table enforces at a write: [unique=True] on [email] and
    [username], [nullable=False]. *)
Inductive constraint : Type :=
| unique (c : column)
| not_null (c : column).


End models.

(** Exceptions of [sqlalchemy.exc] / [sqlalchemy.orm.exc] a commit raises. *)
Inductive exn : Type :=
| IntegrityError (violated : models.constraint)
| StaleDataError
| InvalidRequestError.

(** ** schemas.py *)

Module schemas.

(** A key of the JSON body: absent, or present with [null] or a value. *)
Inductive field (A : Type) : Type :=
| Unset
| Given (v : option A).
Arguments Unset {A}.
Arguments Given {A} v.

Definition is_set {A} (f : field A) : bool :=
  match f with Unset => false | Given _ => true end.

(** The attribute of the model: the default [None] when the key is absent. *)
Definition attr {A} (f : field A) : option A :=
  match f with Unset => None | Given v => v end.

(** The JSON body of POST and PUT [/users], keys outside the four ignored. *)
Module Body.
Record t : Type := mk {
  email : field string;
  username : field string;
  full_name : field string;
  is_active : field bool
}.
End Body.

(** One entry of [model_dump(exclude_unset=True)]. *)
Inductive item : Type :=
| email_is (v : option string)
| username_is (v : option string)
| full_name_is (v : option string)
| is_active_is (v : option bool).

(** [min_length] and [max_length]: bounds on the number of characters. *)
Definition min_max_length (lo hi : nat) (s : string) : bool :=
  ((lo <=? String.length s)%nat && (String.length s <=? hi)%nat)%bool.

Module UserCreate.
(** [UserBase] after validation: defaults filled in. *)
Record t : Type := mk {
  email : string;
  username : string;
  full_name : option string;
  is_active : bool
}.
End UserCreate.

Module UserUpdate.
(** Every field [Optional] with default [None]; the model remembers
    which keys were given ([model_fields_set]). *)
Definition t : Type := Body.t.

Definition email (m : t) : option string := attr (Body.email m).
Definition username (m : t) : option string := attr (Body.username m).
Definition full_name (m : t) : option string := attr (Body.full_name m).
Definition is_active (m : t) : option bool := attr (Body.is_active m).

Definition dump_field {A} (mk : option A -> item) (f : field A) : list item :=
  match f with Unset => [] | Given v => [mk v] end.

(** [model_dump(exclude_unset=True)], in the order of declaration. *)
Definition model_dump_exclude_unset (m : t) : list item :=
  dump_field email_is (Body.email m)
  ++ dump_field username_is (Body.username m)
  ++ dump_field full_name_is (Body.full_name m)
  ++ dump_field is_active_is (Body.is_active m).
End UserUpdate.

Section Validation.

(** pydantic's [EmailStr]: which strings it accepts.  The check lives in
    the [email-validator] package; the accepted string is taken as the
    value of the field. *)
Variable EmailStr : string -> bool.

(** [email: EmailStr = Field(...)]: required, not null. *)
Definition required_email (f : field string) : option string :=
  match f with
  | Given (Some s) => if EmailStr s then Some s else None
  | _ => None
  end.

(** [username: str = Field(..., min_length=3, max_length=50)]. *)
Definition required_username (f : field string) : option string :=
  match f with
  | Given (Some s) => if min_max_length 3 50 s then Some s else None
  | _ => None
  end.

(** [Optional[str] = Field(None, max_length=100)]: [Some v] is the
    validated attribute. *)
Definition optional_full_name (f : field string) : option (option string) :=
  match f with
  | Given (Some s) => if min_max_length 0 100 s then Some (Some s) else None
  | _ => Some None
  end.

(** [is_active: bool = Field(True)]: default [True], [null] refused. *)
Definition defaulted_is_active (f : field bool) : option bool :=
  match f with
  | Unset => Some true
  | Given (Some b) => Some b
  | Given None => None
  end.

Definition validate_UserCreate (b : Body.t) : option UserCreate.t :=
  match required_email (Body.email b),
        required_username (Body.username b),
        optional_full_name (Body.full_name b),
        defaulted_is_active (Body.is_active b) with
  | Some e, Some u, Some fn, Some a => Some (UserCreate.mk e u fn a)
  | _, _, _, _ => None
  end.

(** [Optional[EmailStr] = None]. *)
Definition optional_email (f : field string) : bool :=
  match f with
  | Given (Some s) => EmailStr s
  | _ => true
  end.

(** [Optional[str] = Field(None, min_length=3, max_length=50)]. *)
Definition optional_username (f : field string) : bool :=
  match f with
  | Given (Some s) => min_max_length 3 50 s
  | _ => true
  end.

Definition validate_UserUpdate (b : Body.t) : option UserUpdate.t :=
  if (optional_email (Body.email b)
      && optional_username (Body.username b)
      && match optional_full_name (Body.full_name b) with
         | Some _ => true
         | None => false
         end)%bool
  then Some b else None.

End Validation.

End schemas.

Import models.
Import schemas.

(** ** The session: what a handler asks of the store *)

(** One constructor per call that goes to the database, indexed by what the
    call hands back. *)
Inductive storeE : Type -> Type :=
| query_by_id (user_id : Z) : storeE (option User)
| query_by_email (email : string) : storeE (option User)
| query_by_username (username : string) : storeE (option User)
| query_offset_limit (skip limit : Z) : storeE (list User)
| add_commit_refresh (user : UserCreate.t) : storeE (exn + User)
| commit_refresh (db_user : User) (update_data : list item) : storeE (exn + User)
| delete_commit (db_user : User) : storeE unit
| rollback : storeE unit.

(** A handler: it returns, or makes a call and goes on with the answer. *)
Inductive prog (A : Type) : Type :=
| Ret (a : A)
| Call {X : Type} (e : storeE X) (k : X -> prog A).
Arguments Ret {A} a.
Arguments Call {A X} e k.

Fixpoint bind {A B} (p : prog A) (f : A -> prog B) : prog B :=
  match p with
  | Ret a => f a
  | Call e k => Call e (fun x => bind (k x) f)
  end.

Definition call {X} (e : storeE X) : prog X := Call e Ret.

Notation "x <- p ;; q" := (bind p (fun x => q))
  (at level 61, p at next level, right associativity).

(** A call as it shows in a trace, with the answer it got. *)
Inductive called : Type :=
| Called {X : Type} (e : storeE X) (x : X).

(** A store: a state and how it answers each call. *)
Record Store : Type := mkStore {
  state : Type;
  answer : forall X : Type, storeE X -> state -> X * state
}.

(** Run a handler on a store: its result, the state it leaves and the calls
    it made, in order. *)
Fixpoint run {A} (S : Store) (p : prog A) (s : state S) : A * state S * list called :=
  match p with
  | Ret a => (a, s, [])
  | Call e k =>
      let (x, s') := answer S _ e s in
      let '(a, s'', tr) := run S (k x) s' in
      (a, s'', Called e x :: tr)
  end.




(** ** crud.py *)

Module crud.

Definition get_user (user_id : Z) : prog (option User) :=
  call (query_by_id user_id).

Definition get_user_by_email (email : string) : prog (option User) :=
  call (query_by_email email).

Definition get_user_by_username (username : string) : prog (option User) :=
  call (query_by_username username).

Definition get_users (skip limit : Z) : prog (list User) :=
  call (query_offset_limit skip limit).

(** [db.add(db_user); db.commit(); db.refresh(db_user)]; the commit raises
    [IntegrityError], which [create_user] lets through. *)
Definition create_user (user : UserCreate.t) : prog (exn + User) :=
  call (add_commit_refresh user).

(** [None] when the user is not found; otherwise every entry of
    [model_dump(exclude_unset=True)] is set on the loaded object, an explicit
    [None] included, and the session commits. *)
Definition update_user (user_id : Z) (user_update : UserUpdate.t)
  : prog (exn + option User) :=
  db_user <- get_user user_id ;;
  match db_user with
  | None => Ret (inr None)
  | Some db_user =>
      let update_data := UserUpdate.model_dump_exclude_unset user_update in
      r <- call (commit_refresh db_user update_data) ;;
      match r with
      | inl e => Ret (inl e)
      | inr db_user' => Ret (inr (Some db_user'))
      end
  end.

Definition delete_user (user_id : Z) : prog bool :=
  db_user <- get_user user_id ;;
  match db_user with
  | None => Ret false
  | Some db_user => _ <- call (delete_commit db_user) ;; Ret true
  end.

End crud.

(** ** main.py *)

Module status.
Definition HTTP_200_OK : Z := 200.
Definition HTTP_201_CREATED : Z := 201.
Definition HTTP_204_NO_CONTENT : Z := 204.
Definition HTTP_400_BAD_REQUEST : Z := 400.
Definition HTTP_404_NOT_FOUND : Z := 404.
End status.

(** What the client gets: a user, a list of users or nothing with the
    status of the route, an [HTTPException] a handler raised, the 422 of a
    body that fails its schema, or the 500 of an exception nobody caught. *)
Inductive Response : Type :=
| UserResponse (status_code : Z) (content : User)
| UserList (status_code : Z) (content : list User)
| NoContent (status_code : Z)
| HTTPException (status_code : Z) (detail : string)
| RequestValidationError
| Unhandled (e : exn).

Module main.

(** The string an [Optional[str]] holds, read where it is known truthy. *)
Definition str (v : option string) : string :=
  match v with Some s => s | None => "" end.

(** [existing_user and existing_user.id != user_id]. *)
Definition other (existing_user : option User) (user_id : Z) : bool :=
  match existing_user with
  | Some u => negb (id u =? user_id)
  | None => false
  end.

Definition empty {A} (l : list A) : bool :=
  match l with [] => true | _ :: _ => false end.

Definition create_user (user : UserCreate.t) : prog Response :=
  existing <- crud.get_user_by_email (UserCreate.email user) ;;
  match existing with
  | Some _ =>
      Ret (HTTPException status.HTTP_400_BAD_REQUEST
             ("Email '" ++ UserCreate.email user ++ "' already registered"))
  | None =>
      existing <- crud.get_user_by_username (UserCreate.username user) ;;
      match existing with
      | Some _ =>
          Ret (HTTPException status.HTTP_400_BAD_REQUEST
                 ("Username '" ++ UserCreate.username user ++ "' already taken"))
      | None =>
          r <- crud.create_user user ;;
          match r with
          | inr db_user => Ret (UserResponse status.HTTP_201_CREATED db_user)
          | inl (IntegrityError _) =>
              _ <- call rollback ;;
              Ret (HTTPException status.HTTP_400_BAD_REQUEST
                     "User with this email or username already exists")
          | inl e => Ret (Unhandled e)
          end
      end
  end.

Definition read_users (skip limit : Z) : prog Response :=
  if skip <? 0 then
    Ret (HTTPException status.HTTP_400_BAD_REQUEST "Parameter 'skip' must be >= 0")
  else if (limit <? 1) || (limit >? 1000) then
    Ret (HTTPException status.HTTP_400_BAD_REQUEST
           "Parameter 'limit' must be between 1 and 1000")
  else
    users <- crud.get_users skip limit ;;
    Ret (UserList status.HTTP_200_OK users).

Definition read_user (user_id : Z) : prog Response :=
  if user_id <? 1 then
    Ret (HTTPException status.HTTP_400_BAD_REQUEST "User ID must be a positive integer")
  else
    db_user <- crud.get_user user_id ;;
    match db_user with
    | None =>
        Ret (HTTPException status.HTTP_404_NOT_FOUND
               ("User with ID " ++ str_int user_id ++ " not found"))
    | Some db_user => Ret (UserResponse status.HTTP_200_OK db_user)
    end.

Definition update_user (user_id : Z) (user : UserUpdate.t) : prog Response :=
  if user_id <? 1 then
    Ret (HTTPException status.HTTP_400_BAD_REQUEST "User ID must be a positive integer")
  else if empty (UserUpdate.model_dump_exclude_unset user) then
    Ret (HTTPException status.HTTP_400_BAD_REQUEST
           "At least one field must be provided for update")
  else
    email_taken <-
      (if truthy (UserUpdate.email user) then
         existing_user <- crud.get_user_by_email (str (UserUpdate.email user)) ;;
         Ret (other existing_user user_id)
       else Ret false) ;;
    if email_taken : bool then
      Ret (HTTPException status.HTTP_400_BAD_REQUEST
             ("Email '" ++ str (UserUpdate.email user) ++ "' already registered"))
    else
      username_taken <-
        (if truthy (UserUpdate.username user) then
           existing_user <- crud.get_user_by_username (str (UserUpdate.username user)) ;;
           Ret (other existing_user user_id)
         else Ret false) ;;
      if username_taken : bool then
        Ret (HTTPException status.HTTP_400_BAD_REQUEST
               ("Username '" ++ str (UserUpdate.username user) ++ "' already taken"))
      else
        r <- crud.update_user user_id user ;;
        match r with
        | inr (Some db_user) => Ret (UserResponse status.HTTP_200_OK db_user)
        | inr None =>
            Ret (HTTPException status.HTTP_404_NOT_FOUND
                   ("User with ID " ++ str_int user_id ++ " not found"))
        | inl (IntegrityError _) =>
            _ <- call rollback ;;
            Ret (HTTPException status.HTTP_400_BAD_REQUEST
                   "Email or username already exists")
        | inl e => Ret (Unhandled e)
        end.

Definition delete_user (user_id : Z) : prog Response :=
  if user_id <? 1 then
    Ret (HTTPException status.HTTP_400_BAD_REQUEST "User ID must be a positive integer")
  else
    success <- crud.delete_user user_id ;;
    if success : bool then Ret (NoContent status.HTTP_204_NO_CONTENT)
    else
      Ret (HTTPException status.HTTP_404_NOT_FOUND
             ("User with ID " ++ str_int user_id ++ " not found")).

End main.

(** ** The routes: the body is validated against the handler's schema,
    then the handler runs *)

Inductive Request : Type :=
| POST_users (body : Body.t)
| GET_users (skip limit : Z)
| GET_user (user_id : Z)
| PUT_user (user_id : Z) (body : Body.t)
| DELETE_user (user_id : Z).

Definition app (EmailStr : string -> bool) (req : Request) : prog Response :=
  match req with
  | POST_users body =>
      match validate_UserCreate EmailStr body with
      | Some user => main.create_user user
      | None => Ret RequestValidationError
      end
  | GET_users skip limit => main.read_users skip limit
  | GET_user user_id => main.read_user user_id
  | PUT_user user_id body =>
      match validate_UserUpdate EmailStr body with
      | Some user => main.update_user user_id user
      | None => Ret RequestValidationError
      end
  | DELETE_user user_id => main.delete_user user_id
  end.

(** ** The store: the [users] table in PostgreSQL *)

Module pg.

(** The table and the sequence behind its serial [id].  Rows are kept in
    the order they were inserted. *)
Record DB : Type := mkDB {
  rows : list User;
  users_id_seq : Z
}.

Definition empty : DB := mkDB [] 1.

(** [.filter(...).first()] *)
Definition first (p : User -> bool) (db : DB) : option User :=
  find p (rows db).

Definition by_id (user_id : Z) (u : User) : bool := id u =? user_id.
Definition by_email (e : string) (u : User) : bool := (email u =? e)%string.
Definition by_username (n : string) (u : User) : bool := (username u =? n)%string.

(** [.offset(skip).limit(limit).all()] *)
Definition offset_limit (skip limit : Z) (db : DB) : list User :=
  firstn (Z.to_nat limit) (skipn (Z.to_nat skip) (rows db)).

(** INSERT: the sequence hands out the id (and keeps it handed out when the
    insert fails), [created_at] takes [server_default=func.now()],
    [updated_at] stays NULL, the unique indexes are checked. *)
Definition insert (now : Z) (user : UserCreate.t) (db : DB) : (exn + User) * DB :=
  let new_id := users_id_seq db in
  let row := mkUser new_id (UserCreate.email user) (UserCreate.username user)
                    (UserCreate.full_name user) (UserCreate.is_active user)
                    now None in
  if existsb (by_email (email row)) (rows db) then
    (inl (IntegrityError (unique c_email)), mkDB (rows db) (new_id + 1))
  else if existsb (by_username (username row)) (rows db) then
    (inl (IntegrityError (unique c_username)), mkDB (rows db) (new_id + 1))
  else
    (inr row, mkDB (rows db ++ [row]) (new_id + 1)).

(** What the flush of [db.commit()] makes of the attributes [setattr] has
    set: SQLAlchemy's unit of work compares each attribute that was set
    with the value the object was loaded with, and only those that differ
    go into the UPDATE. *)
Definition is_equal (db_user : User) (i : item) : bool :=
  match i with
  | email_is v => option_eqb String.eqb v (Some (email db_user))
  | username_is v => option_eqb String.eqb v (Some (username db_user))
  | full_name_is v => option_eqb String.eqb v (full_name db_user)
  | is_active_is v => option_eqb Bool.eqb v (Some (is_active db_user))
  end.

Definition net_changes (db_user : User) (update_data : list item) : list item :=
  filter (fun i => negb (is_equal db_user i)) update_data.

(** SET of one column; NULL into a [nullable=False] column is refused. *)
Definition set_column (i : item) (row : User) : exn + User :=
  match i with
  | email_is (Some v) =>
      inr (mkUser (id row) v (username row) (full_name row) (is_active row)
                  (created_at row) (updated_at row))
  | email_is None => inl (IntegrityError (not_null c_email))
  | username_is (Some v) =>
      inr (mkUser (id row) (email row) v (full_name row) (is_active row)
                  (created_at row) (updated_at row))
  | username_is None => inl (IntegrityError (not_null c_username))
  | full_name_is v =>
      inr (mkUser (id row) (email row) (username row) v (is_active row)
                  (created_at row) (updated_at row))
  | is_active_is (Some v) =>
      inr (mkUser (id row) (email row) (username row) (full_name row) v
                  (created_at row) (updated_at row))
  | is_active_is None => inl (IntegrityError (not_null c_is_active))
  end.

Fixpoint set_columns (changed : list item) (row : User) : exn + User :=
  match changed with
  | [] => inr row
  | i :: changed' =>
      match set_column i row with
      | inl e => inl e
      | inr row' => set_columns changed' row'
      end
  end.

(** [onupdate=func.now()] *)
Definition onupdate (now : Z) (row : User) : User :=
  mkUser (id row) (email row) (username row) (full_name row) (is_active row)
         (created_at row) (Some now).

Definition held_by_other (key : User -> string) (row : User) (db : DB) : bool :=
  existsb (fun r => negb (id r =? id row) && (key r =? key row)%string) (rows db).

Definition replace (row : User) (db : DB) : DB :=
  mkDB (map (fun r => if id r =? id row then row else r) (rows db))
       (users_id_seq db).

(** The commit of an object that had attributes set, then the refresh.
    With no net change the flush emits no UPDATE, and [onupdate], a
    default of the UPDATE statement, is not applied: [updated_at] is not
    touched.  Otherwise the changed columns and [updated_at] are written
    to the row of that id, under the NOT NULL and unique constraints.  A
    row that is gone by then fails the UPDATE ([StaleDataError]) or the
    refresh ([InvalidRequestError]). *)
Definition update (now : Z) (db_user : User) (update_data : list item) (db : DB)
  : (exn + User) * DB :=
  match net_changes db_user update_data with
  | [] =>
      match first (by_id (id db_user)) db with
      | Some row => (inr row, db)
      | None => (inl InvalidRequestError, db)
      end
  | changed =>
      match first (by_id (id db_user)) db with
      | None => (inl StaleDataError, db)
      | Some row =>
          match set_columns changed row with
          | inl e => (inl e, db)
          | inr row' =>
              let row' := onupdate now row' in
              if held_by_other email row' db then
                (inl (IntegrityError (unique c_email)), db)
              else if held_by_other username row' db then
                (inl (IntegrityError (unique c_username)), db)
              else (inr row', replace row' db)
          end
      end
  end.

(** DELETE of the row of that id. *)
Definition delete (db_user : User) (db : DB) : DB :=
  mkDB (filter (fun r => negb (id r =? id db_user)) (rows db)) (users_id_seq db).

(** [now] is the time of the request's transaction, which is what
    [func.now()] yields on every statement of it. *)
Definition answer (now : Z) (X : Type) (e : storeE X) (db : DB) : X * DB :=
  match e in storeE X return X * DB with
  | query_by_id user_id => (first (by_id user_id) db, db)
  | query_by_email e => (first (by_email e) db, db)
  | query_by_username n => (first (by_username n) db, db)
  | query_offset_limit skip limit => (offset_limit skip limit db, db)
  | add_commit_refresh user => insert now user db
  | commit_refresh db_user update_data => update now db_user update_data db
  | delete_commit db_user => (tt, delete db_user db)
  | rollback => (tt, db)
  end.

Definition store (now : Z) : Store := mkStore DB (answer now).

(** What the table guarantees of its rows: the primary key and the two
    unique indexes, and ids handed out by the sequence from 1 on. *)
Record wf (db : DB) : Prop := mkWf {
  wf_id : NoDup (map id (rows db));
  wf_email : NoDup (map email (rows db));
  wf_username : NoDup (map username (rows db));
  wf_seq : Forall (fun r => 1 <= id r < users_id_seq db) (rows db);
  wf_start : 1 <= users_id_seq db
}.

End pg.

(** A request served at time [now] on the table [db]: the response and the
    table afterwards. *)
Definition serve (EmailStr : string -> bool) (now : Z) (req : Request) (db : pg.DB)
  : Response * pg.DB :=
  let '(r, db', _) := run (pg.store now) (app EmailStr req) db in (r, db').

(** Requests served one after the other, the i-th at the i-th time. *)
Fixpoint serve_all (EmailStr : string -> bool) (reqs : list (Z * Request)) (db : pg.DB)
  : list Response * pg.DB :=
  match reqs with
  | [] => ([], db)
  | (now, req) :: reqs' =>
      let (r, db') := serve EmailStr now req db in
      let (rs, db'') := serve_all EmailStr reqs' db' in
      (r :: rs, db'')
  end.

(** ** What a message names *)

(** The message mentions the column by its name, whatever the case: the
    way the tests look for it, ["email" in detail.lower()]. *)
Definition names_column (c : column) (detail : string) : bool :=
  contains (column_name c) (lower detail).



(** A store whose table refuses every commit on constraint [k] although no
    lookup finds a row: what a handler sees when another writer commits
    the same email or username between its lookups and its own commit. *)
Definition lost_race (k : constraint) : Store :=
  mkStore unit
    (fun X (e : storeE X) (s : unit) =>
       match e in storeE X return X * unit with
       | query_by_id _ => (None, s)
       | query_by_email _ => (None, s)
       | query_by_username _ => (None, s)
       | query_offset_limit _ _ => ([], s)
       | add_commit_refresh _ => (inl (IntegrityError k), s)
       | commit_refresh _ _ => (inl (IntegrityError k), s)
       | delete_commit _ => (tt, s)
       | rollback => (tt, s)
       end).

(** ** Requests and tables of the test scenarios *)

(** The body of the first test scenario and the model it validates to,
    with a stand-in for [EmailStr]. *)
Definition has_at (s : string) : bool := contains "@" s.

Definition body_abc : Body.t :=
  Body.mk (Given (Some "a@x.com")) (Given (Some "abc")) Unset Unset.

Definition user_abc : UserCreate.t :=
  UserCreate.mk "a@x.com" "abc" None true.

(** One row, created at 10 and never updated. *)
Definition row_x : User := mkUser 1 "a@x.com" "abc" (Some "X") true 10 None.

Definition db_x : pg.DB := pg.mkDB [row_x] 2.

(** Two rows. *)
Definition row_y : User := mkUser 2 "b@x.com" "bcd" None true 11 None.

Definition db_xy : pg.DB := pg.mkDB [row_x; row_y] 3.

Definition body_bcd : Body.t :=
  Body.mk (Given (Some "b@x.com")) (Given (Some "bcd")) Unset Unset.

Definition no_fields : Body.t := Body.mk Unset Unset Unset Unset.

Definition only_full_name (v : option string) : Body.t :=
  Body.mk Unset Unset (Given v) Unset.


Definition own_email_null_username : Body.t :=
  Body.mk (Given (Some "a@x.com")) (Given None) Unset Unset.

Definition null_email : Body.t := Body.mk (Given None) Unset Unset Unset.

Definition null_is_active : Body.t := Body.mk Unset Unset Unset (Given None).

(** ** Notions the statements use *)

(** The requests that can write the row of [user_id]. *)
Definition touches (user_id : Z) (req : Request) : bool :=
  match req with
  | PUT_user i _ => i =? user_id
  | DELETE_user i => i =? user_id
  | _ => false
  end.




Definition invalid_argument_details : list string :=
  ["User ID must be a positive integer";
   "Parameter 'skip' must be >= 0";
   "Parameter 'limit' must be between 1 and 1000";
   "At least one field must be provided for update"].



(** The responses that reject a request. *)
Definition rejects (r : Response) : bool :=
  match r with
  | HTTPException _ _ => true
  | RequestValidationError => true
  | _ => false
  end.

(** ** Statements of the specification that fail on the code *)





(** ** Python dictionaries with string keys *)

Module dict.

(** The entries in insertion order, each key once. *)
Definition t (V : Type) : Type := list (string * V).

Fixpoint lookup {V} (d : t V) (k : string) : option V :=
  match d with
  | [] => None
  | (k', v) :: d' => if (k' =? k)%string then Some v else lookup d' k
  end.

(** [k in d]. *)
Definition contains_key {V} (d : t V) (k : string) : bool :=
  match lookup d k with Some _ => true | None => false end.

(** [d.get(k, default)]. *)
Definition get {V} (d : t V) (k : string) (default : V) : V :=
  match lookup d k with Some v => v | None => default end.

(** [d[k] = v]: a key the dictionary has keeps its place. *)
Fixpoint setitem {V} (d : t V) (k : string) (v : V) : t V :=
  match d with
  | [] => [(k, v)]
  | (k', v') :: d' =>
      if (k' =? k)%string then (k', v) :: d' else (k', v') :: setitem d' k v
  end.

(** [d.update(other)]. *)
Definition update {V} (d other : t V) : t V :=
  fold_left (fun acc kv => setitem acc (fst kv) (snd kv)) other d.

Definition keys {V} (d : t V) : list string := map fst d.

(** [sum(d.values())]. *)
Definition sum_values (d : t Z) : Z := fold_right Z.add 0 (map snd d).

End dict.

(** ** tests/utils/helpers.py *)

Module helpers.

(** The values the dictionaries of the tests hold: the JSON scalars
    [null], booleans, integers and strings, as Python has them. *)
Inductive value : Type :=
| VNone
| VBool (b : bool)
| VInt (n : Z)
| VStr (s : string).

(** Python's [==] on these values: a [bool] is an [int] ([True == 1]);
    [None] and a string equal only their own kind. *)
Definition py_eq (a b : value) : bool :=
  match a, b with
  | VNone, VNone => true
  | VBool x, VBool y => Bool.eqb x y
  | VBool x, VInt n => (if x then 1 else 0) =? n
  | VInt n, VBool x => n =? (if x then 1 else 0)
  | VInt n, VInt m => n =? m
  | VStr s, VStr s' => (s =? s')%string
  | _, _ => false
  end.

(** [str(v)], as an f-string interpolates it. *)
Definition str (v : value) : string :=
  match v with
  | VNone => "None"
  | VBool true => "True"
  | VBool false => "False"
  | VInt n => str_int n
  | VStr s => s
  end.

Definition ascii_lowercase : string := "abcdefghijklmnopqrstuvwxyz".
Definition digits : string := "0123456789".

Fixpoint mem (c : ascii) (s : string) : bool :=
  match s with
  | EmptyString => false
  | String c' s' => Ascii.eqb c c' || mem c s'
  end.

Fixpoint all_in (population s : string) : bool :=
  match s with
  | EmptyString => true
  | String c s' => mem c population && all_in population s'
  end.

(** [s] is a possible result of [''.join(random.choices(population, k=k))]. *)
Definition choices (population : string) (k : nat) (s : string) : bool :=
  ((String.length s =? k)%nat && all_in population s)%bool.

(** [generate_random_email], given the string it draws. *)
Definition generate_random_email (random_string : string) : string :=
  ("test_" ++ random_string ++ "@example.com")%string.

(** [generate_random_username], given the string it draws. *)
Definition generate_random_username (prefix random_string : string) : string :=
  (prefix ++ "_" ++ random_string)%string.

(** [create_test_user_data] with its keyword arguments as the dictionary
    [overrides], given the two strings the generators draw. *)
Definition create_test_user_data (email_draw username_draw : string)
  (overrides : dict.t value) : dict.t value :=
  let default_data :=
    [("email", VStr (generate_random_email email_draw));
     ("username", VStr (generate_random_username "user" username_draw));
     ("full_name", VStr "Test User");
     ("is_active", VBool true)] in
  dict.update default_data overrides.

(** [assert_user_fields]: [None] when it returns, the message of the
    [AssertionError] when it raises. *)
Fixpoint assert_user_fields (user_response expected_data : dict.t value)
  : option string :=
  match expected_data with
  | [] => None
  | (key, expected_value) :: rest =>
      let actual_value := dict.get user_response key VNone in
      if py_eq actual_value expected_value
      then assert_user_fields user_response rest
      else Some ("Field '" ++ key ++ "': expected '" ++ str expected_value
                 ++ "', got '" ++ str actual_value ++ "'")%string
  end.

(** [assert_response_has_fields]: [None] when it returns, the missing
    fields its [AssertionError] lists when it raises. *)
Definition assert_response_has_fields (response_json : dict.t value)
  (required_fields : list string) : option (list string) :=
  let missing_fields :=
    filter (fun field => negb (dict.contains_key response_json field))
           required_fields in
  match missing_fields with
  | [] => None
  | _ => Some missing_fields
  end.

End helpers.

(** ** scripts/load_test.py *)

Set Warnings "-inexact-float".

Module load_test.

Import PrimFloat.

(** The [payload] dictionary: its three keys always hold strings. *)
Module Payload.
Record t : Type := mk {
  email : string;
  username : string;
  full_name : string
}.
End Payload.

(** The payload of iteration [i] and its label, from the two draws of the
    iteration: [random_id] of [generate_random_string] and [error_type] of
    [random.random()], a binary64 compared with binary64 literals. *)
Definition build (i : Z) (random_id : string) (error_type : PrimFloat.float)
  : Payload.t * string :=
  let email := ("test" ++ random_id ++ "@example.com")%string in
  let username := ("user" ++ random_id)%string in
  let full_name := ("Test User " ++ str_int i)%string in
  if PrimFloat.ltb error_type 0.15%float then
    (Payload.mk "invalid-email-without-at-sign" username full_name, "INVALID_EMAIL")
  else if PrimFloat.ltb error_type 0.25%float then
    (Payload.mk "" username full_name, "EMPTY_EMAIL")
  else if PrimFloat.ltb error_type 0.35%float then
    (Payload.mk email "ab" full_name, "SHORT_USERNAME")
  else if PrimFloat.ltb error_type 0.45%float then
    (Payload.mk "duplicate@example.com" username full_name, "DUPLICATE_EMAIL")
  else
    (Payload.mk email username full_name, "VALID").

(** What [create_user_request] talks to: a server answers a payload with a
    status code, or the request fails ([RequestException], [None]). *)
Record Server : Type := mkServer {
  conn : Type;
  post : Payload.t -> conn -> option Z * conn
}.

(** The counters of [main]. *)
Record stats : Type := mkStats {
  success_count : Z;
  error_count : Z;
  error_types : dict.t Z
}.

Definition bump (error_types : dict.t Z) (error_key : string) : dict.t Z :=
  dict.setitem error_types error_key (dict.get error_types error_key 0 + 1).

(** The accounting of one answer. *)
Definition account (status_code : option Z) (error_label : string) (c : stats)
  : stats :=
  match status_code with
  | None =>
      mkStats (success_count c) (error_count c + 1)
              (bump (error_types c) "CONNECTION_ERROR")
  | Some code =>
      if ((200 <=? code) && (code <? 300))%bool then
        mkStats (success_count c + 1) (error_count c) (error_types c)
      else
        mkStats (success_count c) (error_count c + 1)
                (bump (error_types c) (str_int code ++ "_" ++ error_label)%string)
  end.

(** The loop of [main] from iteration [i] on, one pair of draws for each
    iteration left. *)
Fixpoint loop (S : Server) (i : Z) (draws : list (string * PrimFloat.float))
  (c : stats) (s : conn S) : stats * conn S :=
  match draws with
  | [] => (c, s)
  | (random_id, error_type) :: draws' =>
      let (payload, error_label) := build i random_id error_type in
      let (status_code, s') := post S payload s in
      loop S (i + 1) draws' (account status_code error_label c) s'
  end.

Definition total_requests : nat := 20.

(** [main]: the counters after the loop, the prints left out. *)
Definition main (S : Server) (draw : nat -> string * PrimFloat.float) (s : conn S)
  : stats * conn S :=
  loop S 0 (map draw (seq 0 total_requests)) (mkStats 0 0 []) s.

(** The body [requests.post(..., json=payload)] sends. *)
Definition json (payload : Payload.t) : Body.t :=
  Body.mk (Given (Some (Payload.email payload)))
          (Given (Some (Payload.username payload)))
          (Given (Some (Payload.full_name payload)))
          Unset.

(** [response.status_code]: 422 for a body that fails its schema, 500 for
    an exception no handler caught. *)
Definition status_code (r : Response) : Z :=
  match r with
  | UserResponse c _ => c
  | UserList c _ => c
  | NoContent c => c
  | HTTPException c _ => c
  | RequestValidationError => 422
  | Unhandled _ => 500
  end.

(** The application on its table as the server, the n-th request served at
    the time [clock n]. *)
Definition api (EmailStr : string -> bool) (clock : nat -> Z) : Server :=
  mkServer (pg.DB * nat)
    (fun payload s =>
       let (r, db') := serve EmailStr (clock (snd s)) (POST_users (json payload)) (fst s) in
       (Some (status_code r), (db', S (snd s)))).

(** The keys [error_types] can hold when the server is the application. *)
Definition api_error_keys : list string :=
  ["422_INVALID_EMAIL"; "422_EMPTY_EMAIL"; "422_SHORT_USERNAME";
   "400_DUPLICATE_EMAIL"; "400_VALID"].

(** A server that answers nothing: every request fails to connect. *)
Definition unreachable : Server :=
  mkServer unit (fun _ s => (None, s)).

(** Draws of a run: the same identifier each time, the branch by the
    iteration. *)
Definition draw_example (i : nat) : string * PrimFloat.float :=
  ("a1b2c3d4",
   match Nat.modulo i 5 with
   | 0%nat => 0.1%float
   | 1%nat => 0.2%float
   | 2%nat => 0.3%float
   | 3%nat => 0.4%float
   | _ => 0.9%float
   end).

End load_test.

Set Warnings "+inexact-float".

(** * Proofs *)

(** ** Strings *)

Lemma prefix_append (a b : string) : String.prefix a (a ++ b) = true.
Proof.
  induction a as [|c a IH]; simpl.
  - now destruct b.
  - destruct (ascii_dec c c) as [_|ne]; [exact IH | now elim ne].
Qed.

Lemma contains_prefix (needle hay : string) :
  String.prefix needle hay = true -> contains needle hay = true.
Proof. intros H. destruct hay; simpl in *; rewrite H; reflexivity. Qed.

Lemma contains_append (needle a b : string) :
  contains needle (a ++ needle ++ b) = true.
Proof.
  induction a as [|c a IH]; simpl.
  - apply contains_prefix, prefix_append.
  - rewrite IH. apply orb_true_r.
Qed.




Lemma names_column_email (e : string) :
  names_column c_email ("Email '" ++ e ++ "' already registered") = true.
Proof. reflexivity. Qed.

Lemma names_column_username (u : string) :
  names_column c_username ("Username '" ++ u ++ "' already taken") = true.
Proof. reflexivity. Qed.

(** ** Lists keyed by a column *)

Section Keyed.

Context {K : Type} (key : User -> K) (eqb : K -> K -> bool).
Hypothesis eqb_eq : forall a b, eqb a b = true <-> a = b.

Lemma find_key_sound (k : K) (l : list User) (r : User) :
  find (fun x => eqb (key x) k) l = Some r -> In r l /\ key r = k.
Proof.
  intros H. apply find_some in H. destruct H as [Hin Hk].
  split; [exact Hin | now apply eqb_eq].
Qed.

Lemma find_key_none (k : K) (l : list User) :
  find (fun x => eqb (key x) k) l = None <-> ~ In k (map key l).
Proof.
  split.
  - intros H Hin. apply in_map_iff in Hin. destruct Hin as (r & Hk & Hin).
    pose proof (find_none _ _ H r Hin) as Hf. simpl in Hf.
    apply eqb_eq in Hk. congruence.
  - intros H. destruct (find _ l) as [r|] eqn:E; [|reflexivity].
    apply find_key_sound in E. destruct E as [Hin Hk].
    elim H. rewrite <- Hk. now apply in_map.
Qed.

Lemma find_key_unique (l : list User) (r : User) :
  NoDup (map key l) -> In r l ->
  find (fun x => eqb (key x) (key r)) l = Some r.
Proof.
  induction l as [|x l IH]; simpl; intros Hnd Hin; [easy|].
  inversion Hnd as [|? ? Hx Hnd']; subst.
  destruct (eqb (key x) (key r)) eqn:E.
  - apply eqb_eq in E. destruct Hin as [->|Hin]; [reflexivity|].
    elim Hx. rewrite E. now apply in_map.
  - destruct Hin as [->|Hin].
    + assert (eqb (key r) (key r) = true) by now apply eqb_eq. congruence.
    + now apply IH.
Qed.

Lemma existsb_key (k : K) (l : list User) :
  existsb (fun x => eqb (key x) k) l = false <-> ~ In k (map key l).
Proof.
  rewrite <- find_key_none. induction l as [|x l IH]; simpl; [easy|].
  destruct (eqb (key x) k); simpl; [easy | exact IH].
Qed.

Lemma NoDup_map_filter (p : User -> bool) (l : list User) :
  NoDup (map key l) -> NoDup (map key (filter p l)).
Proof.
  induction l as [|x l IH]; simpl; intros Hnd; [constructor|].
  inversion Hnd as [|? ? Hx Hnd']; subst.
  destruct (p x); simpl; [|now apply IH].
  constructor; [|now apply IH].
  intros Hin. apply Hx. apply in_map_iff in Hin. destruct Hin as (y & Hy & Hin).
  apply filter_In in Hin. rewrite <- Hy. apply in_map. tauto.
Qed.

Lemma NoDup_map_snoc (l : list User) (r : User) :
  NoDup (map key l) -> ~ In (key r) (map key l) -> NoDup (map key (l ++ [r])).
Proof.
  intros Hnd Hr. rewrite map_app. simpl.
  apply NoDup_app; [exact Hnd | repeat constructor; easy |].
  intros a Ha [<-|[]]. exact (Hr Ha).
Qed.

End Keyed.

(** ** The table keeps its constraints *)

Lemma set_column_frame (i : item) (row row' : User) :
  pg.set_column i row = inr row' ->
  id row' = id row /\ created_at row' = created_at row
  /\ updated_at row' = updated_at row.
Proof.
  destruct i as [[v|]|[v|]|v|[v|]]; simpl; intros H; inversion H; subst; simpl; auto.
Qed.

Lemma set_columns_frame (changed : list item) (row row' : User) :
  pg.set_columns changed row = inr row' ->
  id row' = id row /\ created_at row' = created_at row
  /\ updated_at row' = updated_at row.
Proof.
  revert row. induction changed as [|i changed IH]; simpl; intros row H.
  - inversion H; subst; auto.
  - destruct (pg.set_column i row) as [e|row1] eqn:E; [discriminate|].
    apply set_column_frame in E. apply IH in H.
    destruct E as (E1 & E2 & E3). destruct H as (H1 & H2 & H3).
    repeat split; congruence.
Qed.

Lemma first_by_id_sound (user_id : Z) (db : pg.DB) (r : User) :
  pg.first (pg.by_id user_id) db = Some r -> In r (pg.rows db) /\ id r = user_id.
Proof. apply (find_key_sound id Z.eqb Z.eqb_eq). Qed.

Lemma first_by_id_complete (db : pg.DB) (r : User) :
  pg.wf db -> In r (pg.rows db) -> pg.first (pg.by_id (id r)) db = Some r.
Proof. intros [Hid _ _ _ _]. now apply (find_key_unique id Z.eqb Z.eqb_eq). Qed.

Lemma first_by_email_complete (db : pg.DB) (r : User) :
  pg.wf db -> In r (pg.rows db) -> pg.first (pg.by_email (email r)) db = Some r.
Proof. intros [_ He _ _ _]. now apply (find_key_unique email String.eqb String.eqb_eq). Qed.

Lemma first_by_username_complete (db : pg.DB) (r : User) :
  pg.wf db -> In r (pg.rows db) ->
  pg.first (pg.by_username (username r)) db = Some r.
Proof. intros [_ _ Hu _ _]. now apply (find_key_unique username String.eqb String.eqb_eq). Qed.

Lemma held_by_other_false (key : User -> string) (row : User) (db : pg.DB) :
  pg.held_by_other key row db = false <->
  forall r, In r (pg.rows db) -> id r <> id row -> key r <> key row.
Proof.
  unfold pg.held_by_other. split.
  - intros H r Hin Hid Hk.
    assert (existsb (fun r => negb (id r =? id row) && (key r =? key row)%string)
                    (pg.rows db) = true) as Ht; [|congruence].
    apply existsb_exists. exists r. split; [exact Hin|].
    apply andb_true_iff. split.
    + apply negb_true_iff. now apply Z.eqb_neq.
    + now apply String.eqb_eq.
  - intros H. destruct (existsb _ _) eqn:E; [|reflexivity].
    apply existsb_exists in E. destruct E as (r & Hin & Hr).
    apply andb_true_iff in Hr. destruct Hr as [Hid Hk].
    apply negb_true_iff, Z.eqb_neq in Hid. apply String.eqb_eq in Hk.
    elim (H r Hin Hid Hk).
Qed.

Lemma replace_ids (row : User) (l : list User) :
  map id (map (fun r => if id r =? id row then row else r) l) = map id l.
Proof.
  induction l as [|x l IH]; simpl; [reflexivity|]. rewrite IH. f_equal.
  destruct (id x =? id row) eqn:E; [|reflexivity]. apply Z.eqb_eq in E. congruence.
Qed.

Lemma replace_absent (row : User) (l : list User) :
  ~ In (id row) (map id l) ->
  map (fun r => if id r =? id row then row else r) l = l.
Proof.
  induction l as [|x l IH]; simpl; intros H; [reflexivity|].
  destruct (id x =? id row) eqn:E.
  - apply Z.eqb_eq in E. elim H. now left.
  - rewrite IH; [reflexivity | tauto].
Qed.

Lemma replace_NoDup (key : User -> string) (row : User) (l : list User) :
  NoDup (map id l) -> NoDup (map key l) ->
  (forall r, In r l -> id r <> id row -> key r <> key row) ->
  NoDup (map key (map (fun r => if id r =? id row then row else r) l)).
Proof.
  induction l as [|x l IH]; simpl; intros Hid Hk Hother; [constructor|].
  inversion Hid as [|? ? Hx Hid']; subst. inversion Hk as [|? ? Hkx Hk']; subst.
  destruct (id x =? id row) eqn:E.
  - apply Z.eqb_eq in E. rewrite replace_absent by congruence.
    constructor; [|exact Hk'].
    intros Hin. apply in_map_iff in Hin. destruct Hin as (y & Hy & Hin).
    apply (Hother y); [now right | | exact Hy].
    intros Heq. apply Hx. rewrite E, <- Heq. now apply in_map.
  - apply Z.eqb_neq in E. constructor; [|apply IH; auto].
    intros Hin. apply in_map_iff in Hin. destruct Hin as (y & Hy & Hin).
    apply in_map_iff in Hin. destruct Hin as (z & Hz & Hin).
    destruct (id z =? id row); subst y.
    + apply (Hother x); [now left | exact E | now symmetry].
    + apply Hkx. rewrite <- Hy. now apply in_map.
Qed.

Lemma insert_wf (now : Z) (user : UserCreate.t) (db : pg.DB) :
  pg.wf db -> pg.wf (snd (pg.insert now user db)).
Proof.
  intros [Hid He Hu Hseq Hstart]. unfold pg.insert.
  assert (Forall (fun r => 1 <= id r < pg.users_id_seq db + 1) (pg.rows db)) as Hseq'.
  { eapply Forall_impl; [|exact Hseq]. simpl. intros; lia. }
  destruct (existsb _ _) eqn:Ee; [constructor; simpl; (assumption || lia)|].
  destruct (existsb (pg.by_username _) _) eqn:Eu; [constructor; simpl; (assumption || lia)|].
  simpl in Ee, Eu.
  apply (existsb_key email String.eqb String.eqb_eq) in Ee.
  apply (existsb_key username String.eqb String.eqb_eq) in Eu.
  constructor; simpl.
  - apply NoDup_map_snoc; [exact Hid|]. simpl. intros Hin.
    apply in_map_iff in Hin. destruct Hin as (r & Hr & Hin).
    rewrite Forall_forall in Hseq. specialize (Hseq r Hin). lia.
  - now apply NoDup_map_snoc.
  - now apply NoDup_map_snoc.
  - apply Forall_app. split; [exact Hseq'|]. constructor; [|constructor]. simpl. lia.
  - lia.
Qed.

Lemma update_wf (now : Z) (db_user : User) (update_data : list item) (db : pg.DB) :
  pg.wf db -> pg.wf (snd (pg.update now db_user update_data db)).
Proof.
  intros Hwf. unfold pg.update.
  destruct (pg.net_changes _ _) as [|i changed].
  { destruct (pg.first _ db); exact Hwf. }
  destruct (pg.first _ db) as [row|] eqn:Erow; [|exact Hwf].
  destruct (pg.set_columns _ row) as [e|row'] eqn:Eset; [exact Hwf|].
  destruct (pg.held_by_other email _ db) eqn:Ee; [exact Hwf|].
  destruct (pg.held_by_other username _ db) eqn:Eu; [exact Hwf|].
  rewrite held_by_other_false in Ee, Eu.
  destruct Hwf as [Hid He Hu Hseq Hstart].
  apply set_columns_frame in Eset. destruct Eset as (Eid & _ & _).
  apply first_by_id_sound in Erow. destruct Erow as [Hin Hrow].
  unfold pg.replace. constructor; cbn [snd pg.rows pg.users_id_seq].
  - now rewrite replace_ids.
  - now apply replace_NoDup.
  - now apply replace_NoDup.
  - rewrite Forall_forall in *. intros r Hr. apply in_map_iff in Hr.
    destruct Hr as (x & Hx & Hr).
    destruct (id x =? id _); subst r; [|now apply Hseq].
    simpl. rewrite Eid. now apply Hseq.
  - exact Hstart.
Qed.

Lemma delete_wf (db_user : User) (db : pg.DB) :
  pg.wf db -> pg.wf (pg.delete db_user db).
Proof.
  intros [Hid He Hu Hseq Hstart]. constructor; simpl.
  - now apply NoDup_map_filter.
  - now apply NoDup_map_filter.
  - now apply NoDup_map_filter.
  - rewrite Forall_forall in *. intros r Hr. apply filter_In in Hr. now apply Hseq.
  - exact Hstart.
Qed.

Lemma answer_wf (now : Z) (X : Type) (e : storeE X) (db : pg.DB) :
  pg.wf db -> pg.wf (snd (pg.answer now X e db)).
Proof.
  intros Hwf. destruct e; simpl; try exact Hwf.
  - now apply insert_wf.
  - now apply update_wf.
  - now apply delete_wf.
Qed.

Lemma run_wf {A} (now : Z) (p : prog A) (db : pg.DB) :
  pg.wf db -> pg.wf (snd (fst (run (pg.store now) p db))).
Proof.
  revert db. induction p as [a|X e k IH]; simpl; intros db Hwf; [exact Hwf|].
  pose proof (answer_wf now X e db Hwf) as Hwf'.
  destruct (pg.answer now X e db) as [x db'] eqn:E. simpl in Hwf'.
  specialize (IH x db' Hwf').
  destruct (run (pg.store now) (k x) db') as [[a db''] tr]. exact IH.
Qed.

Lemma serve_wf (EmailStr : string -> bool) (now : Z) (req : Request) (db : pg.DB) :
  pg.wf db -> pg.wf (snd (serve EmailStr now req db)).
Proof.
  intros Hwf. unfold serve.
  pose proof (run_wf now (app EmailStr req) db Hwf) as H.
  destruct (run (pg.store now) (app EmailStr req) db) as [[r db'] tr]. exact H.
Qed.

Lemma serve_all_wf (EmailStr : string -> bool) (reqs : list (Z * Request)) (db : pg.DB) :
  pg.wf db -> pg.wf (snd (serve_all EmailStr reqs db)).
Proof.
  revert db. induction reqs as [|[now req] reqs IH]; simpl; intros db Hwf; [exact Hwf|].
  pose proof (serve_wf EmailStr now req db Hwf) as H.
  destruct (serve EmailStr now req db) as [r db']. simpl in H.
  specialize (IH db' H). destruct (serve_all EmailStr reqs db') as [rs db'']. exact IH.
Qed.

Lemma empty_wf : pg.wf pg.empty.
Proof. constructor; simpl; try constructor; lia. Qed.

(** ** Create *)

(** C1.  A create request whose body passes validation makes its calls in
    this order, on any store: the lookup by email, and a row found there
    ends the request with the conflict naming the email; then the lookup
    by username, and a row found there ends it with the conflict naming
    the username; then the insert.  An insert the store refuses with an
    [IntegrityError], both lookups having found nothing, is rolled back
    and answered with the generic duplicate message; the user is created
    exactly when the insert is accepted. *)
Theorem create_user_steps
  (EmailStr : string -> bool) (S : Store) (s : state S)
  (body : Body.t) (user : UserCreate.t) :
  validate_UserCreate EmailStr body = Some user ->
  let e := UserCreate.email user in
  let u := UserCreate.username user in
  let (by_email, s1) := answer S _ (query_by_email e) s in
  let (by_username, s2) := answer S _ (query_by_username u) s1 in
  let (inserted, s3) := answer S _ (add_commit_refresh user) s2 in
  let (undone, s4) := answer S _ rollback s3 in
  run S (app EmailStr (POST_users body)) s =
  match by_email, by_username, inserted with
  | Some _, _, _ =>
      (HTTPException 400 ("Email '" ++ e ++ "' already registered"), s1,
       [Called (query_by_email e) by_email])
  | None, Some _, _ =>
      (HTTPException 400 ("Username '" ++ u ++ "' already taken"), s2,
       [Called (query_by_email e) by_email;
        Called (query_by_username u) by_username])
  | None, None, inr db_user =>
      (UserResponse 201 db_user, s3,
       [Called (query_by_email e) by_email;
        Called (query_by_username u) by_username;
        Called (add_commit_refresh user) inserted])
  | None, None, inl (IntegrityError _) =>
      (HTTPException 400 "User with this email or username already exists", s4,
       [Called (query_by_email e) by_email;
        Called (query_by_username u) by_username;
        Called (add_commit_refresh user) inserted;
        Called rollback undone])
  | None, None, inl raised =>
      (Unhandled raised, s3,
       [Called (query_by_email e) by_email;
        Called (query_by_username u) by_username;
        Called (add_commit_refresh user) inserted])
  end.
Proof.
  intros Hvalid. simpl. rewrite Hvalid.
  unfold main.create_user, crud.get_user_by_email, crud.get_user_by_username,
    crud.create_user, call. simpl.
  destruct (answer S _ (query_by_email (UserCreate.email user)) s)
    as [by_email s1].
  destruct (answer S _ (query_by_username (UserCreate.username user)) s1)
    as [by_username s2] eqn:Eu.
  destruct (answer S _ (add_commit_refresh user) s2) as [inserted s3] eqn:Ei.
  destruct (answer S _ rollback s3) as [undone s4] eqn:Er.
  destruct by_email as [found|]; simpl; [reflexivity|].
  rewrite Eu. destruct by_username as [found|]; simpl; [reflexivity|].
  rewrite Ei. destruct inserted as [[k| |]|db_user]; simpl; try reflexivity.
  rewrite Er. reflexivity.
Qed.

(** A create that loses the race for its email. *)
Lemma create_user_steps_lost_race :
  validate_UserCreate has_at body_abc = Some user_abc
  /\ run (lost_race (unique c_email)) (app has_at (POST_users body_abc)) tt =
     (HTTPException 400 "User with this email or username already exists", tt,
      [Called (query_by_email "a@x.com") None;
       Called (query_by_username "abc") None;
       Called (add_commit_refresh user_abc) (inl (IntegrityError (unique c_email)));
       Called rollback tt]).
Proof.
  split; [reflexivity|].
  exact (create_user_steps has_at (lost_race (unique c_email)) tt body_abc user_abc eq_refl).
Defined.

(** ** The requests on the table, in closed form *)

Lemma serve_GET_user (EmailStr : string -> bool) (now user_id : Z) (db : pg.DB) :
  serve EmailStr now (GET_user user_id) db =
  if user_id <? 1 then
    (HTTPException 400 "User ID must be a positive integer", db)
  else
    match pg.first (pg.by_id user_id) db with
    | None => (HTTPException 404 ("User with ID " ++ str_int user_id ++ " not found"), db)
    | Some db_user => (UserResponse 200 db_user, db)
    end.
Proof.
  unfold serve. simpl. unfold main.read_user.
  destruct (user_id <? 1); [reflexivity|]. simpl.
  destruct (pg.first (pg.by_id user_id) db); reflexivity.
Qed.

Lemma serve_GET_users (EmailStr : string -> bool) (now skip limit : Z) (db : pg.DB) :
  serve EmailStr now (GET_users skip limit) db =
  if skip <? 0 then
    (HTTPException 400 "Parameter 'skip' must be >= 0", db)
  else if (limit <? 1) || (limit >? 1000) then
    (HTTPException 400 "Parameter 'limit' must be between 1 and 1000", db)
  else (UserList 200 (pg.offset_limit skip limit db), db).
Proof.
  unfold serve. simpl. unfold main.read_users.
  destruct (skip <? 0); [reflexivity|].
  destruct ((limit <? 1) || (limit >? 1000)); reflexivity.
Qed.

Lemma serve_DELETE_user (EmailStr : string -> bool) (now user_id : Z) (db : pg.DB) :
  serve EmailStr now (DELETE_user user_id) db =
  if user_id <? 1 then
    (HTTPException 400 "User ID must be a positive integer", db)
  else
    match pg.first (pg.by_id user_id) db with
    | None => (HTTPException 404 ("User with ID " ++ str_int user_id ++ " not found"), db)
    | Some db_user => (NoContent 204, pg.delete db_user db)
    end.
Proof.
  unfold serve. simpl. unfold main.delete_user.
  destruct (user_id <? 1); [reflexivity|]. simpl.
  destruct (pg.first (pg.by_id user_id) db); reflexivity.
Qed.

Lemma serve_POST_users (EmailStr : string -> bool) (now : Z) (body : Body.t) (db : pg.DB) :
  serve EmailStr now (POST_users body) db =
  match validate_UserCreate EmailStr body with
  | None => (RequestValidationError, db)
  | Some user =>
      match pg.first (pg.by_email (UserCreate.email user)) db with
      | Some _ =>
          (HTTPException 400 ("Email '" ++ UserCreate.email user ++ "' already registered"), db)
      | None =>
          match pg.first (pg.by_username (UserCreate.username user)) db with
          | Some _ =>
              (HTTPException 400
                 ("Username '" ++ UserCreate.username user ++ "' already taken"), db)
          | None =>
              match pg.insert now user db with
              | (inr db_user, db') => (UserResponse 201 db_user, db')
              | (inl (IntegrityError _), db') =>
                  (HTTPException 400 "User with this email or username already exists", db')
              | (inl raised, db') => (Unhandled raised, db')
              end
          end
      end
  end.
Proof.
  unfold serve. simpl.
  destruct (validate_UserCreate EmailStr body) as [user|]; [|reflexivity].
  unfold main.create_user. simpl.
  destruct (pg.first (pg.by_email _) db); [reflexivity|]. simpl.
  destruct (pg.first (pg.by_username _) db); [reflexivity|]. simpl.
  destruct (pg.insert now user db) as [[[k| |]|db_user] db']; reflexivity.
Qed.

Lemma serve_PUT_user (EmailStr : string -> bool) (now user_id : Z) (body : Body.t)
  (db : pg.DB) :
  serve EmailStr now (PUT_user user_id body) db =
  match validate_UserUpdate EmailStr body with
  | None => (RequestValidationError, db)
  | Some user =>
      if user_id <? 1 then
        (HTTPException 400 "User ID must be a positive integer", db)
      else if main.empty (UserUpdate.model_dump_exclude_unset user) then
        (HTTPException 400 "At least one field must be provided for update", db)
      else if truthy (UserUpdate.email user)
              && main.other (pg.first (pg.by_email (main.str (UserUpdate.email user))) db)
                            user_id then
        (HTTPException 400
           ("Email '" ++ main.str (UserUpdate.email user) ++ "' already registered"), db)
      else if truthy (UserUpdate.username user)
              && main.other
                   (pg.first (pg.by_username (main.str (UserUpdate.username user))) db)
                   user_id then
        (HTTPException 400
           ("Username '" ++ main.str (UserUpdate.username user) ++ "' already taken"), db)
      else
        match pg.first (pg.by_id user_id) db with
        | None =>
            (HTTPException 404 ("User with ID " ++ str_int user_id ++ " not found"), db)
        | Some db_user =>
            match pg.update now db_user (UserUpdate.model_dump_exclude_unset user) db with
            | (inr db_user', db') => (UserResponse 200 db_user', db')
            | (inl (IntegrityError _), db') =>
                (HTTPException 400 "Email or username already exists", db')
            | (inl raised, db') => (Unhandled raised, db')
            end
        end
  end.
Proof.
  unfold serve. simpl.
  destruct (validate_UserUpdate EmailStr body) as [user|]; [|reflexivity].
  unfold main.update_user.
  destruct (user_id <? 1); [reflexivity|].
  destruct (main.empty _); [reflexivity|].
  destruct (truthy (UserUpdate.email user)); simpl.
  - destruct (main.other _ user_id); simpl; [reflexivity|].
    destruct (truthy (UserUpdate.username user)); simpl.
    + destruct (main.other _ user_id); simpl; [reflexivity|].
      destruct (pg.first (pg.by_id user_id) db); simpl; [|reflexivity].
      destruct (pg.update _ _ _ _) as [[[k| |]|db_user'] db']; reflexivity.
    + destruct (pg.first (pg.by_id user_id) db); simpl; [|reflexivity].
      destruct (pg.update _ _ _ _) as [[[k| |]|db_user'] db']; reflexivity.
  - destruct (truthy (UserUpdate.username user)); simpl.
    + destruct (main.other _ user_id); simpl; [reflexivity|].
      destruct (pg.first (pg.by_id user_id) db); simpl; [|reflexivity].
      destruct (pg.update _ _ _ _) as [[[k| |]|db_user'] db']; reflexivity.
    + destruct (pg.first (pg.by_id user_id) db); simpl; [|reflexivity].
      destruct (pg.update _ _ _ _) as [[[k| |]|db_user'] db']; reflexivity.
Qed.

(** ** What a request leaves alone *)

Lemma find_snoc {A} (p : A -> bool) (l : list A) (x : A) :
  find p (l ++ [x]) =
  match find p l with
  | Some y => Some y
  | None => if p x then Some x else None
  end.
Proof.
  induction l as [|y l IH]; simpl; [reflexivity|].
  destruct (p y); [reflexivity | exact IH].
Qed.

Lemma find_replace_other (row : User) (user_id : Z) (l : list User) :
  id row <> user_id ->
  find (pg.by_id user_id) (map (fun r => if id r =? id row then row else r) l) =
  find (pg.by_id user_id) l.
Proof.
  intros Hne. induction l as [|x l IH]; simpl; [reflexivity|]. unfold pg.by_id at 1 3.
  destruct (id x =? id row) eqn:E.
  - apply Z.eqb_eq in E.
    replace (id row =? user_id) with false by (symmetry; now apply Z.eqb_neq).
    replace (id x =? user_id) with false by (symmetry; apply Z.eqb_neq; congruence).
    exact IH.
  - destruct (id x =? user_id); [reflexivity | exact IH].
Qed.

Lemma find_filter_other (i user_id : Z) (l : list User) :
  i <> user_id ->
  find (pg.by_id user_id) (filter (fun r => negb (id r =? i)) l) =
  find (pg.by_id user_id) l.
Proof.
  intros Hne. induction l as [|x l IH]; simpl; [reflexivity|].
  destruct (id x =? i) eqn:E; simpl.
  - apply Z.eqb_eq in E. unfold pg.by_id at 2.
    replace (id x =? user_id) with false by (symmetry; apply Z.eqb_neq; congruence).
    exact IH.
  - destruct (pg.by_id user_id x); [reflexivity | exact IH].
Qed.

Lemma find_filter_same (user_id : Z) (l : list User) :
  find (pg.by_id user_id) (filter (fun r => negb (id r =? user_id)) l) = None.
Proof.
  induction l as [|x l IH]; simpl; [reflexivity|].
  destruct (id x =? user_id) eqn:E; simpl; [exact IH|].
  unfold pg.by_id at 1. rewrite E. exact IH.
Qed.

Lemma insert_accepted (now : Z) (user : UserCreate.t) (db : pg.DB) :
  pg.first (pg.by_email (UserCreate.email user)) db = None ->
  pg.first (pg.by_username (UserCreate.username user)) db = None ->
  let row := mkUser (pg.users_id_seq db) (UserCreate.email user)
                    (UserCreate.username user) (UserCreate.full_name user)
                    (UserCreate.is_active user) now None in
  pg.insert now user db =
  (inr row, pg.mkDB (pg.rows db ++ [row]) (pg.users_id_seq db + 1)).
Proof.
  intros He Hu. unfold pg.insert. simpl.
  apply (find_key_none email String.eqb String.eqb_eq) in He.
  apply (find_key_none username String.eqb String.eqb_eq) in Hu.
  apply (existsb_key email String.eqb String.eqb_eq) in He.
  apply (existsb_key username String.eqb String.eqb_eq) in Hu.
  unfold pg.by_email, pg.by_username. rewrite He, Hu. reflexivity.
Qed.

Lemma insert_first_by_id (now : Z) (user : UserCreate.t) (db : pg.DB) (user_id : Z) :
  user_id < pg.users_id_seq db ->
  pg.first (pg.by_id user_id) (snd (pg.insert now user db)) =
  pg.first (pg.by_id user_id) db.
Proof.
  intros Hlt. unfold pg.insert.
  destruct (existsb _ _); [reflexivity|].
  destruct (existsb _ _); [reflexivity|].
  unfold pg.first. simpl. rewrite find_snoc.
  destruct (find _ _); [reflexivity|]. unfold pg.by_id. simpl.
  replace (pg.users_id_seq db =? user_id) with false; [reflexivity|].
  symmetry. apply Z.eqb_neq. lia.
Qed.

Lemma update_first_by_id (now : Z) (db_user : User) (update_data : list item)
  (db : pg.DB) (user_id : Z) :
  id db_user <> user_id ->
  pg.first (pg.by_id user_id) (snd (pg.update now db_user update_data db)) =
  pg.first (pg.by_id user_id) db.
Proof.
  intros Hne. unfold pg.update.
  destruct (pg.net_changes _ _) as [|i changed].
  { destruct (pg.first _ db); reflexivity. }
  destruct (pg.first (pg.by_id (id db_user)) db) as [row|] eqn:Erow; [|reflexivity].
  destruct (pg.set_columns _ row) as [e|row'] eqn:Eset; [reflexivity|].
  destruct (pg.held_by_other email _ db); [reflexivity|].
  destruct (pg.held_by_other username _ db); [reflexivity|].
  apply set_columns_frame in Eset. destruct Eset as (Eid & _ & _).
  apply first_by_id_sound in Erow. destruct Erow as [_ Hrow].
  unfold pg.first, pg.replace. cbn [snd pg.rows].
  apply find_replace_other. simpl. congruence.
Qed.

Lemma update_seq (now : Z) (db_user : User) (update_data : list item) (db : pg.DB) :
  pg.users_id_seq (snd (pg.update now db_user update_data db)) = pg.users_id_seq db.
Proof.
  unfold pg.update.
  destruct (pg.net_changes _ _) as [|i changed].
  { destruct (pg.first _ db); reflexivity. }
  destruct (pg.first _ db) as [row|]; [|reflexivity].
  destruct (pg.set_columns _ row) as [e|row']; [reflexivity|].
  destruct (pg.held_by_other email _ db); [reflexivity|].
  destruct (pg.held_by_other username _ db); reflexivity.
Qed.

Lemma insert_seq (now : Z) (user : UserCreate.t) (db : pg.DB) :
  pg.users_id_seq (snd (pg.insert now user db)) = pg.users_id_seq db + 1.
Proof.
  unfold pg.insert.
  destruct (existsb _ _); [reflexivity|]. destruct (existsb _ _); reflexivity.
Qed.

Lemma serve_seq (EmailStr : string -> bool) (now : Z) (req : Request) (db : pg.DB) :
  pg.users_id_seq db <= pg.users_id_seq (snd (serve EmailStr now req db)).
Proof.
  destruct req as [body|skip limit|i|i body|i].
  - rewrite serve_POST_users.
    destruct (validate_UserCreate EmailStr body) as [user|]; simpl; [|lia].
    destruct (pg.first _ db); simpl; [lia|].
    destruct (pg.first _ db); simpl; [lia|].
    pose proof (insert_seq now user db) as H.
    destruct (pg.insert now user db) as [[[k| |]|u] db']; simpl in *; lia.
  - rewrite serve_GET_users.
    destruct (skip <? 0); simpl; [lia|].
    destruct ((limit <? 1) || (limit >? 1000)); simpl; lia.
  - rewrite serve_GET_user. destruct (i <? 1); simpl; [lia|].
    destruct (pg.first _ db); simpl; lia.
  - rewrite serve_PUT_user.
    destruct (validate_UserUpdate EmailStr body) as [user|]; simpl; [|lia].
    destruct (i <? 1); simpl; [lia|]. destruct (main.empty _); simpl; [lia|].
    destruct (truthy _ && _); simpl; [lia|]. destruct (truthy _ && _); simpl; [lia|].
    destruct (pg.first _ db) as [db_user|]; simpl; [|lia].
    pose proof (update_seq now db_user (UserUpdate.model_dump_exclude_unset user) db) as H.
    destruct (pg.update _ _ _ _) as [[[k| |]|u] db']; simpl in *; lia.
  - rewrite serve_DELETE_user. destruct (i <? 1); simpl; [lia|].
    destruct (pg.first _ db); simpl; lia.
Qed.

Lemma serve_first_by_id (EmailStr : string -> bool) (now : Z) (req : Request)
  (db : pg.DB) (user_id : Z) :
  user_id < pg.users_id_seq db ->
  touches user_id req = false \/ pg.first (pg.by_id user_id) db = None ->
  pg.first (pg.by_id user_id) (snd (serve EmailStr now req db)) =
  pg.first (pg.by_id user_id) db.
Proof.
  intros Hlt Hreq. destruct req as [body|skip limit|i|i body|i].
  - rewrite serve_POST_users.
    destruct (validate_UserCreate EmailStr body) as [user|]; simpl; [|reflexivity].
    destruct (pg.first (pg.by_email _) db); simpl; [reflexivity|].
    destruct (pg.first (pg.by_username _) db); simpl; [reflexivity|].
    pose proof (insert_first_by_id now user db user_id Hlt) as H.
    destruct (pg.insert now user db) as [[[k| |]|u] db']; simpl in *; exact H.
  - rewrite serve_GET_users.
    destruct (skip <? 0); simpl; [reflexivity|].
    destruct ((limit <? 1) || (limit >? 1000)); reflexivity.
  - rewrite serve_GET_user. destruct (i <? 1); simpl; [reflexivity|].
    destruct (pg.first (pg.by_id i) db); reflexivity.
  - rewrite serve_PUT_user.
    destruct (validate_UserUpdate EmailStr body) as [user|]; simpl; [|reflexivity].
    destruct (i <? 1); simpl; [reflexivity|].
    destruct (main.empty _); simpl; [reflexivity|].
    destruct (truthy _ && _); simpl; [reflexivity|].
    destruct (truthy _ && _); simpl; [reflexivity|].
    destruct (pg.first (pg.by_id i) db) as [db_user|] eqn:Ei; simpl; [|reflexivity].
    assert (id db_user <> user_id) as Hne.
    { pose proof Ei as Hi. apply first_by_id_sound in Hi. destruct Hi as [_ Hi].
      destruct Hreq as [Ht|Hn].
      - simpl in Ht. apply Z.eqb_neq in Ht. congruence.
      - intros Hu. rewrite Hi in Hu. subst i. congruence. }
    pose proof (update_first_by_id now db_user
                  (UserUpdate.model_dump_exclude_unset user) db user_id Hne) as H.
    destruct (pg.update _ _ _ _) as [[[k| |]|u] db']; simpl in *; exact H.
  - rewrite serve_DELETE_user. destruct (i <? 1); simpl; [reflexivity|].
    destruct (pg.first (pg.by_id i) db) as [db_user|] eqn:Ei; simpl; [|reflexivity].
    pose proof Ei as Hi. apply first_by_id_sound in Hi. destruct Hi as [_ Hi].
    unfold pg.first, pg.delete. simpl. apply find_filter_other.
    destruct Hreq as [Ht|Hn].
    + simpl in Ht. apply Z.eqb_neq in Ht. congruence.
    + intros Hu. rewrite Hi in Hu. subst i. congruence.
Qed.

Lemma serve_all_first_by_id (EmailStr : string -> bool) (reqs : list (Z * Request))
  (db : pg.DB) (user_id : Z) :
  user_id < pg.users_id_seq db ->
  Forall (fun r => touches user_id (snd r) = false) reqs
  \/ pg.first (pg.by_id user_id) db = None ->
  pg.first (pg.by_id user_id) (snd (serve_all EmailStr reqs db)) =
  pg.first (pg.by_id user_id) db.
Proof.
  revert db. induction reqs as [|[now req] reqs IH]; simpl; intros db Hlt Hreqs;
    [reflexivity|].
  pose proof (serve_seq EmailStr now req db) as Hseq.
  assert (pg.first (pg.by_id user_id) (snd (serve EmailStr now req db)) =
          pg.first (pg.by_id user_id) db) as Hstep.
  { apply serve_first_by_id; [exact Hlt|].
    destruct Hreqs as [Hall|Hnone]; [left | now right].
    inversion Hall; subst. assumption. }
  destruct (serve EmailStr now req db) as [r db'] eqn:E. simpl in Hseq, Hstep.
  specialize (IH db').
  destruct (serve_all EmailStr reqs db') as [rs db'']. simpl in *.
  rewrite IH; [exact Hstep | lia |].
  destruct Hreqs as [Hall|Hnone]; [left | right; congruence].
  inversion Hall; subst. assumption.
Qed.

Lemma wf_row_bounds (db : pg.DB) (user_id : Z) (r : User) :
  pg.wf db -> pg.first (pg.by_id user_id) db = Some r ->
  (user_id <? 1) = false /\ user_id < pg.users_id_seq db /\ id r = user_id
  /\ In r (pg.rows db).
Proof.
  intros Hwf Hr. apply first_by_id_sound in Hr. destruct Hr as [Hin Hid].
  pose proof (pg.wf_seq db Hwf) as Hseq. rewrite Forall_forall in Hseq.
  specialize (Hseq r Hin). repeat split; try assumption; lia.
Qed.

(** ** Delete *)

(** C7.  Deleting an existing user answers 204 with no payload and removes
    the row.  From then on, whatever requests are served in between, a read
    of that id answers 404 and so does another delete of it, which leaves
    the table as it found it. *)
Theorem delete_is_terminal
  (EmailStr : string -> bool) (now : Z) (db : pg.DB) (user_id : Z) (db_user : User) :
  pg.wf db ->
  pg.first (pg.by_id user_id) db = Some db_user ->
  let db1 := pg.delete db_user db in
  serve EmailStr now (DELETE_user user_id) db = (NoContent 204, db1)
  /\ ~ In user_id (map id (pg.rows db1))
  /\ forall (reqs : list (Z * Request)) (now' : Z),
       let db2 := snd (serve_all EmailStr reqs db1) in
       serve EmailStr now' (GET_user user_id) db2 =
         (HTTPException 404 ("User with ID " ++ str_int user_id ++ " not found"), db2)
       /\ serve EmailStr now' (DELETE_user user_id) db2 =
         (HTTPException 404 ("User with ID " ++ str_int user_id ++ " not found"), db2).
Proof.
  intros Hwf Hrow db1.
  destruct (wf_row_bounds db user_id db_user Hwf Hrow) as (Hpos & Hlt & Hid & Hin).
  assert (pg.first (pg.by_id user_id) db1 = None) as Hgone.
  { unfold db1, pg.first, pg.delete. simpl. rewrite Hid. apply find_filter_same. }
  split; [|split].
  - rewrite serve_DELETE_user, Hpos, Hrow. reflexivity.
  - now apply (find_key_none id Z.eqb Z.eqb_eq).
  - intros reqs now' db2.
    assert (pg.first (pg.by_id user_id) db2 = None) as Hstill.
    { unfold db2. rewrite serve_all_first_by_id; [exact Hgone | exact Hlt | now right]. }
    rewrite serve_GET_user, serve_DELETE_user, Hpos, Hstill. split; reflexivity.
Qed.

(** ** Create, then read *)

Lemma validate_UserCreate_fields (EmailStr : string -> bool) (body : Body.t)
  (user : UserCreate.t) :
  validate_UserCreate EmailStr body = Some user ->
  Body.email body = Given (Some (UserCreate.email user))
  /\ Body.username body = Given (Some (UserCreate.username user))
  /\ (forall v, Body.full_name body = Given v -> UserCreate.full_name user = v)
  /\ (Body.full_name body = Unset -> UserCreate.full_name user = None)
  /\ (forall v, Body.is_active body = Given v -> v = Some (UserCreate.is_active user))
  /\ (Body.is_active body = Unset -> UserCreate.is_active user = true).
Proof.
  unfold validate_UserCreate. destruct body as [e u n a]. simpl.
  destruct e as [|[e|]]; simpl; try discriminate.
  destruct (EmailStr e); try discriminate.
  destruct u as [|[u|]]; simpl; try discriminate.
  destruct (min_max_length 3 50 u); try discriminate.
  destruct n as [|[n|]]; simpl; [| destruct (min_max_length 0 100 n); try discriminate |];
    (destruct a as [|[a|]]; simpl; try discriminate;
     intros H; inversion H; subst; simpl;
     repeat split; try congruence; intros v Hv; inversion Hv; reflexivity).
Qed.


(** ** List *)


(** ** Update: the body must carry a field *)

Lemma dump_not_empty (body : Body.t) :
  is_set (Body.email body) || is_set (Body.username body)
  || is_set (Body.full_name body) || is_set (Body.is_active body) = true ->
  main.empty (UserUpdate.model_dump_exclude_unset body) = false.
Proof.
  destruct body as [[|e] [|u] [|n] [|a]]; simpl; intros H;
    try reflexivity; discriminate.
Qed.

Lemma validate_UserUpdate_id (EmailStr : string -> bool) (body : Body.t)
  (user : UserUpdate.t) :
  validate_UserUpdate EmailStr body = Some user -> user = body.
Proof.
  unfold validate_UserUpdate. destruct (_ && _ && _); intros H; now inversion H.
Qed.

Lemma update_user_past_the_check (S : Store) (s : state S) (user_id : Z)
  (user : UserUpdate.t) :
  main.empty (UserUpdate.model_dump_exclude_unset user) = false ->
  fst (fst (run S (main.update_user user_id user) s)) <>
  HTTPException 400 "At least one field must be provided for update".
Proof.
  intros Hfields. unfold main.update_user. rewrite Hfields.
  destruct (user_id <? 1); simpl; [discriminate|].
  destruct (truthy (UserUpdate.email user)); simpl.
  - destruct (answer S _ (query_by_email _) s) as [x s1]. simpl.
    destruct (main.other x user_id); simpl; [discriminate|].
    destruct (truthy (UserUpdate.username user)); simpl.
    + destruct (answer S _ (query_by_username _) s1) as [y s2]. simpl.
      destruct (main.other y user_id); simpl; [discriminate|].
      destruct (answer S _ (query_by_id _) s2) as [[u|] s3]; simpl; [|discriminate].
      destruct (answer S _ (commit_refresh _ _) s3) as [[[k| |]|u'] s4]; simpl;
        try discriminate.
      destruct (answer S _ rollback s4). simpl. discriminate.
    + destruct (answer S _ (query_by_id _) s1) as [[u|] s3]; simpl; [|discriminate].
      destruct (answer S _ (commit_refresh _ _) s3) as [[[k| |]|u'] s4]; simpl;
        try discriminate.
      destruct (answer S _ rollback s4). simpl. discriminate.
  - destruct (truthy (UserUpdate.username user)); simpl.
    + destruct (answer S _ (query_by_username _) s) as [y s2]. simpl.
      destruct (main.other y user_id); simpl; [discriminate|].
      destruct (answer S _ (query_by_id _) s2) as [[u|] s3]; simpl; [|discriminate].
      destruct (answer S _ (commit_refresh _ _) s3) as [[[k| |]|u'] s4]; simpl;
        try discriminate.
      destruct (answer S _ rollback s4). simpl. discriminate.
    + destruct (answer S _ (query_by_id _) s) as [[u|] s3]; simpl; [|discriminate].
      destruct (answer S _ (commit_refresh _ _) s3) as [[[k| |]|u'] s4]; simpl;
        try discriminate.
      destruct (answer S _ rollback s4). simpl. discriminate.
Qed.

(** C5.  An update request whose body has no field at all is answered 400
    without any call to the store, on any store; for a valid id the
    message is the one of the empty body.  A valid body that gives at least
    one of the four fields, [is_active] false or a null included, dumps to
    a non-empty dictionary and is never answered with that message. *)
Theorem empty_update_rejected (EmailStr : string -> bool) (user_id : Z) :
  validate_UserUpdate EmailStr no_fields = Some no_fields
  /\ (forall (S : Store) (s : state S),
      exists detail,
        run S (app EmailStr (PUT_user user_id no_fields)) s =
          (HTTPException 400 detail, s, [])
        /\ (1 <= user_id ->
            detail = "At least one field must be provided for update"))
  /\ (forall body : Body.t,
      validate_UserUpdate EmailStr body <> None ->
      is_set (Body.email body) || is_set (Body.username body)
      || is_set (Body.full_name body) || is_set (Body.is_active body) = true ->
      main.empty (UserUpdate.model_dump_exclude_unset body) = false
      /\ forall (S : Store) (s : state S),
           fst (fst (run S (app EmailStr (PUT_user user_id body)) s)) <>
           HTTPException 400 "At least one field must be provided for update").
Proof.
  split; [reflexivity|]. split.
  - intros S s. simpl. unfold main.update_user.
    destruct (user_id <? 1) eqn:E; simpl.
    + eexists. split; [reflexivity|]. lia.
    + eexists. split; [reflexivity|]. reflexivity.
  - intros body Hvalid Hfields. split; [now apply dump_not_empty|].
    intros S s. simpl.
    destruct (validate_UserUpdate EmailStr body) as [user|] eqn:E; [|easy].
    apply validate_UserUpdate_id in E. subst user.
    apply update_user_past_the_check. now apply dump_not_empty.
Qed.

(** ** Update: what the commit writes *)

Lemma option_eqb_refl (o : option string) : option_eqb String.eqb o o = true.
Proof. destruct o; simpl; [apply String.eqb_refl | reflexivity]. Qed.




(** ** Update: the lookups before the commit *)





Section Checks.

Variable EmailStr : string -> bool.
Hypothesis EmailStr_not_empty : EmailStr "" = false.






End Checks.



(** ** Update: partial updates *)


Lemma db_x_wf : pg.wf db_x.
Proof.
  constructor; simpl; try lia;
    repeat constructor; simpl; try tauto; lia.
Qed.


(** The scenario of the tests: create at 10, set [full_name] at 11 and
    again, to the same value, at 12: the second update keeps the stamp
    of the first. *)
Example second_same_update_keeps_stamp :
  fst (serve_all has_at
         [(10, POST_users body_abc);
          (11, PUT_user 1 (only_full_name (Some "X")));
          (12, PUT_user 1 (only_full_name (Some "X")))]
         pg.empty)
  = [UserResponse 201 (mkUser 1 "a@x.com" "abc" None true 10 None);
     UserResponse 200 (mkUser 1 "a@x.com" "abc" (Some "X") true 10 (Some 11));
     UserResponse 200 (mkUser 1 "a@x.com" "abc" (Some "X") true 10 (Some 11))].
Proof. reflexivity. Qed.


(** ** Update: a record's own email and username *)




Example own_email_null_username_response :
  serve has_at 11 (PUT_user 1 own_email_null_username) db_x
  = (HTTPException 400 "Email or username already exists", db_x).
Proof. reflexivity. Qed.

(** ** Update: a null for email or username *)







Example null_email_trace :
  run (pg.store 11) (app has_at (PUT_user 1 null_email)) db_x
  = (HTTPException 400 "Email or username already exists", db_x,
     [Called (query_by_id 1) (Some row_x);
      Called (commit_refresh row_x [email_is None])
             (inl (IntegrityError (not_null c_email)));
      Called rollback tt]).
Proof. reflexivity. Qed.

(** ** The messages of conflicts and of not-found *)





(** The message of a create that loses the race is the same whichever
    unique index refused the insert. *)
Example commit_conflict_is_generic (k : constraint) :
  fst (fst (run (lost_race k) (app has_at (POST_users body_abc)) tt))
  = HTTPException 400 "User with this email or username already exists".
Proof. reflexivity. Qed.


(** A body that gives only a null [is_active] is past the check. *)
Lemma empty_update_rejected_witness :
  validate_UserUpdate has_at null_is_active <> None
  /\ is_set (Body.email null_is_active) || is_set (Body.username null_is_active)
     || is_set (Body.full_name null_is_active) || is_set (Body.is_active null_is_active)
     = true
  /\ main.empty (UserUpdate.model_dump_exclude_unset null_is_active) = false
  /\ forall (S : Store) (s : state S),
       fst (fst (run S (app has_at (PUT_user 1 null_is_active)) s)) <>
       HTTPException 400 "At least one field must be provided for update".
Proof.
  split; [discriminate|]. split; [reflexivity|].
  exact (proj2 (proj2 (empty_update_rejected has_at 1)) null_is_active
               ltac:(discriminate) eq_refl).
Defined.


(** Delete of the one row, then a read and a second delete. *)
Lemma delete_is_terminal_witness :
  pg.wf db_x
  /\ pg.first (pg.by_id 1) db_x = Some row_x
  /\ serve has_at 12 (DELETE_user 1) db_x = (NoContent 204, pg.mkDB [] 2)
  /\ serve has_at 13 (GET_user 1) (pg.mkDB [] 2)
     = (HTTPException 404 "User with ID 1 not found", pg.mkDB [] 2)
  /\ serve has_at 13 (DELETE_user 1) (pg.mkDB [] 2)
     = (HTTPException 404 "User with ID 1 not found", pg.mkDB [] 2).
Proof.
  split; [exact db_x_wf|]. split; [reflexivity|].
  pose proof (delete_is_terminal has_at 12 db_x 1 row_x db_x_wf eq_refl) as H.
  split; [exact (proj1 H)|]. exact (proj2 (proj2 H) [] 13).
Defined.


(** * Further properties of the handlers *)

(** ** The table after any sequence of requests *)

Lemma NoDup_key_inj {K : Type} (key : User -> K) (eqb : K -> K -> bool)
  (eqb_eq : forall a b, eqb a b = true <-> a = b) (l : list User) (r1 r2 : User) :
  NoDup (map key l) -> In r1 l -> In r2 l -> key r1 = key r2 -> r1 = r2.
Proof.
  intros Hnd H1 H2 Hk.
  pose proof (find_key_unique key eqb eqb_eq l r1 Hnd H1) as F1.
  pose proof (find_key_unique key eqb eqb_eq l r2 Hnd H2) as F2.
  rewrite Hk in F1. congruence.
Qed.

(** X1.  Whatever requests are served, one after the other, from the empty
    table on: every row has a positive id, and two rows that share an id,
    an email or a username are the same row. *)
Theorem rows_stay_unique (EmailStr : string -> bool) (reqs : list (Z * Request)) :
  let db := snd (serve_all EmailStr reqs pg.empty) in
  forall r1 r2,
    In r1 (pg.rows db) -> In r2 (pg.rows db) ->
    1 <= id r1
    /\ (id r1 = id r2 \/ email r1 = email r2 \/ username r1 = username r2 -> r1 = r2).
Proof.
  intros db r1 r2 H1 H2.
  pose proof (serve_all_wf EmailStr reqs pg.empty empty_wf) as [Hid He Hu Hseq _].
  fold db in Hid, He, Hu, Hseq. split.
  - rewrite Forall_forall in Hseq. specialize (Hseq r1 H1). lia.
  - intros [H|[H|H]].
    + exact (NoDup_key_inj id Z.eqb Z.eqb_eq _ r1 r2 Hid H1 H2 H).
    + exact (NoDup_key_inj email String.eqb String.eqb_eq _ r1 r2 He H1 H2 H).
    + exact (NoDup_key_inj username String.eqb String.eqb_eq _ r1 r2 Hu H1 H2 H).
Qed.

(** ** Create, one request at a time *)





(** ** Update: the order of the checks *)





(** ** Rejections *)

Ltac no_call_or_not_invalid :=
  simpl;
  first
    [ left; split; reflexivity
    | right; split; [discriminate|];
      let d := fresh "d" in
      let H := fresh "H" in
      let Hin := fresh "Hin" in
      intros d H Hin; inversion H; subst; simpl in Hin;
      repeat (destruct Hin as [Hin|Hin]; [discriminate Hin|]); exact Hin ].

(** A run that called the store does not end in a 422 or in one of the
    invalid-argument messages. *)
Lemma run_no_call_or_not_invalid
  (EmailStr : string -> bool) (S : Store) (s : state S) (req : Request) :
  (snd (run S (app EmailStr req) s) = [] /\ snd (fst (run S (app EmailStr req) s)) = s)
  \/ (fst (fst (run S (app EmailStr req) s)) <> RequestValidationError
      /\ forall detail,
           fst (fst (run S (app EmailStr req) s)) = HTTPException 400 detail ->
           ~ In detail invalid_argument_details).
Proof.
  destruct req as [body|skip limit|i|i body|i]; simpl.
  - destruct (validate_UserCreate EmailStr body) as [user|]; [|no_call_or_not_invalid].
    unfold main.create_user. simpl.
    destruct (answer S _ (query_by_email _) s) as [[o|] s1]; simpl;
      [no_call_or_not_invalid|].
    destruct (answer S _ (query_by_username _) s1) as [[o|] s2]; simpl;
      [no_call_or_not_invalid|].
    destruct (answer S _ (add_commit_refresh _) s2) as [[[c| |]|u] s3]; simpl;
      try no_call_or_not_invalid.
    destruct (answer S _ rollback s3). no_call_or_not_invalid.
  - unfold main.read_users. destruct (skip <? 0); [no_call_or_not_invalid|].
    destruct ((limit <? 1) || (limit >? 1000)); [no_call_or_not_invalid|]. simpl.
    destruct (answer S _ (query_offset_limit _ _) s). no_call_or_not_invalid.
  - unfold main.read_user. destruct (i <? 1); [no_call_or_not_invalid|]. simpl.
    destruct (answer S _ (query_by_id _) s) as [[o|] s1]; no_call_or_not_invalid.
  - destruct (validate_UserUpdate EmailStr body) as [user|]; [|no_call_or_not_invalid].
    unfold main.update_user. destruct (i <? 1); [no_call_or_not_invalid|].
    destruct (main.empty _); [no_call_or_not_invalid|].
    destruct (truthy (UserUpdate.email user)); simpl.
    + destruct (answer S _ (query_by_email _) s) as [x s1]. simpl.
      destruct (main.other x i); simpl; [no_call_or_not_invalid|].
      destruct (truthy (UserUpdate.username user)); simpl.
      * destruct (answer S _ (query_by_username _) s1) as [y s2]. simpl.
        destruct (main.other y i); simpl; [no_call_or_not_invalid|].
        destruct (answer S _ (query_by_id _) s2) as [[u|] s3]; simpl;
          [|no_call_or_not_invalid].
        destruct (answer S _ (commit_refresh _ _) s3) as [[[c| |]|u'] s4]; simpl;
          try no_call_or_not_invalid.
        destruct (answer S _ rollback s4). no_call_or_not_invalid.
      * destruct (answer S _ (query_by_id _) s1) as [[u|] s3]; simpl;
          [|no_call_or_not_invalid].
        destruct (answer S _ (commit_refresh _ _) s3) as [[[c| |]|u'] s4]; simpl;
          try no_call_or_not_invalid.
        destruct (answer S _ rollback s4). no_call_or_not_invalid.
    + destruct (truthy (UserUpdate.username user)); simpl.
      * destruct (answer S _ (query_by_username _) s) as [y s2]. simpl.
        destruct (main.other y i); simpl; [no_call_or_not_invalid|].
        destruct (answer S _ (query_by_id _) s2) as [[u|] s3]; simpl;
          [|no_call_or_not_invalid].
        destruct (answer S _ (commit_refresh _ _) s3) as [[[c| |]|u'] s4]; simpl;
          try no_call_or_not_invalid.
        destruct (answer S _ rollback s4). no_call_or_not_invalid.
      * destruct (answer S _ (query_by_id _) s) as [[u|] s3]; simpl;
          [|no_call_or_not_invalid].
        destruct (answer S _ (commit_refresh _ _) s3) as [[[c| |]|u'] s4]; simpl;
          try no_call_or_not_invalid.
        destruct (answer S _ rollback s4). no_call_or_not_invalid.
  - unfold main.delete_user. destruct (i <? 1); [no_call_or_not_invalid|]. simpl.
    destruct (answer S _ (query_by_id _) s) as [[o|] s1]; simpl;
      [|no_call_or_not_invalid].
    destruct (answer S _ (delete_commit _) s1). no_call_or_not_invalid.
Qed.

(** X5.  On any store, a request rejected as structurally invalid (422) or
    with one of the invalid-argument messages (non-positive id, bad
    pagination, empty update body) has made no call to the store. *)
Theorem invalid_requests_make_no_call
  (EmailStr : string -> bool) (S : Store) (s : state S) (req : Request) :
  fst (fst (run S (app EmailStr req) s)) = RequestValidationError
  \/ (exists detail,
        fst (fst (run S (app EmailStr req) s)) = HTTPException 400 detail
        /\ In detail invalid_argument_details) ->
  snd (run S (app EmailStr req) s) = [] /\ snd (fst (run S (app EmailStr req) s)) = s.
Proof.
  intros Hrej.
  destruct (run_no_call_or_not_invalid EmailStr S s req) as [H|[Hne Hnot]];
    [exact H|].
  destruct Hrej as [Hr|(d & Hr & Hin)]; [contradiction|].
  elim (Hnot d Hr Hin).
Qed.

Lemma invalid_requests_make_no_call_witness :
  fst (fst (run (pg.store 11) (app has_at (PUT_user 1 no_fields)) db_x))
  = HTTPException 400 "At least one field must be provided for update"
  /\ snd (run (pg.store 11) (app has_at (PUT_user 1 no_fields)) db_x) = []
  /\ snd (fst (run (pg.store 11) (app has_at (PUT_user 1 no_fields)) db_x)) = db_x.
Proof.
  split; [reflexivity|].
  apply (invalid_requests_make_no_call has_at (pg.store 11) db_x (PUT_user 1 no_fields)).
  right. eexists. split; [reflexivity|]. simpl. tauto.
Defined.

Lemma update_failed_keeps_table (now : Z) (db_user : User) (update_data : list item)
  (db : pg.DB) (raised : exn) :
  fst (pg.update now db_user update_data db) = inl raised ->
  snd (pg.update now db_user update_data db) = db.
Proof.
  unfold pg.update.
  destruct (pg.net_changes _ _) as [|i changed].
  { destruct (pg.first _ db); [discriminate | reflexivity]. }
  destruct (pg.first _ db) as [row|]; [|reflexivity].
  destruct (pg.set_columns _ row) as [e|row']; [reflexivity|].
  destruct (pg.held_by_other email _ db); [reflexivity|].
  destruct (pg.held_by_other username _ db); [reflexivity | discriminate].
Qed.

(** X6.  A request that is rejected (any 4xx) leaves the rows of the table
    as they were, and a read (one user or the list) leaves the whole table
    as it was, whatever it answers. *)
Theorem rejected_requests_write_nothing
  (EmailStr : string -> bool) (now : Z) (req : Request) (db : pg.DB) :
  (rejects (fst (serve EmailStr now req db)) = true ->
   pg.rows (snd (serve EmailStr now req db)) = pg.rows db)
  /\ match req with
     | GET_user _ => snd (serve EmailStr now req db) = db
     | GET_users _ _ => snd (serve EmailStr now req db) = db
     | _ => True
     end.
Proof.
  destruct req as [body|skip limit|i|i body|i].
  - split; [|exact I]. rewrite serve_POST_users.
    destruct (validate_UserCreate EmailStr body) as [user|]; [|reflexivity].
    destruct (pg.first (pg.by_email _) db) eqn:Ee; [reflexivity|].
    destruct (pg.first (pg.by_username _) db) eqn:Eu; [reflexivity|].
    rewrite (insert_accepted now user db Ee Eu). discriminate.
  - rewrite serve_GET_users. destruct (skip <? 0); [now split|].
    destruct ((limit <? 1) || (limit >? 1000)); now split.
  - rewrite serve_GET_user. destruct (i <? 1); [now split|].
    destruct (pg.first (pg.by_id i) db); now split.
  - split; [|exact I]. rewrite serve_PUT_user.
    destruct (validate_UserUpdate EmailStr body) as [user|]; [|reflexivity].
    destruct (i <? 1); [reflexivity|]. destruct (main.empty _); [reflexivity|].
    destruct (truthy _ && _); [reflexivity|].
    destruct (truthy _ && _); [reflexivity|].
    destruct (pg.first (pg.by_id i) db) as [db_user|]; [|reflexivity].
    pose proof (update_failed_keeps_table now db_user
                  (UserUpdate.model_dump_exclude_unset user) db) as H.
    destruct (pg.update _ _ _ _) as [[[k| |]|u'] db']; simpl in *;
      try discriminate; intros _; now rewrite (H _ eq_refl).
  - split; [|exact I]. rewrite serve_DELETE_user.
    destruct (i <? 1); [reflexivity|].
    destruct (pg.first (pg.by_id i) db); [discriminate | reflexivity].
Qed.

(** A create whose email is taken leaves the table as it was. *)
Lemma rejected_requests_write_nothing_witness :
  rejects (fst (serve has_at 11 (POST_users body_abc) db_x)) = true
  /\ pg.rows (snd (serve has_at 11 (POST_users body_abc) db_x)) = pg.rows db_x.
Proof.
  split; [reflexivity|].
  exact (proj1 (rejected_requests_write_nothing has_at 11 (POST_users body_abc) db_x)
               eq_refl).
Defined.

(** ** Pages of the list *)




Lemma db_xy_wf : pg.wf db_xy.
Proof.
  constructor; simpl; try lia.
  - repeat constructor; simpl; intuition discriminate.
  - repeat constructor; simpl; intuition discriminate.
  - repeat constructor; simpl; intuition discriminate.
  - repeat constructor; simpl; lia.
Qed.


Lemma In_firstn {A} (n : nat) (l : list A) (x : A) : In x (firstn n l) -> In x l.
Proof.
  revert l. induction n as [|n IH]; intros [|y l]; simpl; try tauto.
  intros [->|H]; [now left | right; now apply IH].
Qed.

Lemma In_skipn {A} (n : nat) (l : list A) (x : A) : In x (skipn n l) -> In x l.
Proof.
  revert l. induction n as [|n IH]; intros [|y l]; simpl; try tauto.
  intros H. right. now apply IH.
Qed.

(** X8.  Every user a valid list request returns is a row of the table,
    and reading that user by its id returns the same record. *)
Theorem listed_users_can_be_read
  (EmailStr : string -> bool) (now now' : Z) (db db' : pg.DB) (skip limit : Z)
  (users : list User) :
  pg.wf db ->
  serve EmailStr now (GET_users skip limit) db = (UserList 200 users, db') ->
  forall u, In u users ->
    In u (pg.rows db)
    /\ serve EmailStr now' (GET_user (id u)) db = (UserResponse 200 u, db).
Proof.
  intros Hwf Hserve u Hu. rewrite serve_GET_users in Hserve.
  destruct (skip <? 0); [discriminate|].
  destruct ((limit <? 1) || (limit >? 1000)); [discriminate|].
  inversion Hserve; subst users db'; clear Hserve.
  assert (In u (pg.rows db)) as Hin.
  { unfold pg.offset_limit in Hu.
    apply In_firstn in Hu. now apply In_skipn in Hu. }
  split; [exact Hin|].
  rewrite serve_GET_user, (first_by_id_complete db u Hwf Hin).
  pose proof (pg.wf_seq db Hwf) as Hseq. rewrite Forall_forall in Hseq.
  specialize (Hseq u Hin). replace (id u <? 1) with false by lia. reflexivity.
Qed.

Lemma listed_users_can_be_read_witness :
  pg.wf db_xy
  /\ serve has_at 12 (GET_users 1 10) db_xy = (UserList 200 [row_y], db_xy)
  /\ In row_y [row_y]
  /\ serve has_at 13 (GET_user (id row_y)) db_xy = (UserResponse 200 row_y, db_xy).
Proof.
  split; [exact db_xy_wf|]. split; [reflexivity|]. split; [now left|].
  exact (proj2 (listed_users_can_be_read has_at 12 13 db_xy db_xy 1 10 [row_y]
                  db_xy_wf eq_refl row_y (or_introl eq_refl))).
Defined.

(** ** Create and the lookups *)

(** What an accepted create has found and written. *)
Lemma serve_POST_accepted (EmailStr : string -> bool) (now : Z) (db db1 : pg.DB)
  (body : Body.t) (created : User) :
  serve EmailStr now (POST_users body) db = (UserResponse 201 created, db1) ->
  exists user,
    validate_UserCreate EmailStr body = Some user
    /\ pg.first (pg.by_email (UserCreate.email user)) db = None
    /\ pg.first (pg.by_username (UserCreate.username user)) db = None
    /\ created = mkUser (pg.users_id_seq db) (UserCreate.email user)
                        (UserCreate.username user) (UserCreate.full_name user)
                        (UserCreate.is_active user) now None
    /\ db1 = pg.mkDB (pg.rows db ++ [created]) (pg.users_id_seq db + 1).
Proof.
  intros Hserve. rewrite serve_POST_users in Hserve.
  destruct (validate_UserCreate EmailStr body) as [user|] eqn:Hvalid; [|discriminate].
  destruct (pg.first (pg.by_email _) db) eqn:He; [discriminate|].
  destruct (pg.first (pg.by_username _) db) eqn:Hu; [discriminate|].
  rewrite (insert_accepted now user db He Hu) in Hserve.
  inversion Hserve; subst. exists user. repeat split; assumption.
Qed.

Lemma In_created (EmailStr : string -> bool) (now : Z) (db db1 : pg.DB)
  (body : Body.t) (created : User) :
  pg.wf db ->
  serve EmailStr now (POST_users body) db = (UserResponse 201 created, db1) ->
  pg.wf db1 /\ In created (pg.rows db1).
Proof.
  intros Hwf Hserve. split.
  - pose proof (serve_wf EmailStr now (POST_users body) db Hwf) as H.
    now rewrite Hserve in H.
  - apply serve_POST_accepted in Hserve.
    destruct Hserve as (user & _ & _ & _ & _ & ->). simpl.
    apply in_or_app. right. now left.
Qed.

(** X9.  After an accepted create, the lookups of [crud.py] by id, by
    email and by username each return the created record. *)
Theorem create_then_lookup
  (EmailStr : string -> bool) (now now' : Z) (db db1 : pg.DB) (body : Body.t)
  (created : User) :
  pg.wf db ->
  serve EmailStr now (POST_users body) db = (UserResponse 201 created, db1) ->
  fst (fst (run (pg.store now') (crud.get_user (id created)) db1)) = Some created
  /\ fst (fst (run (pg.store now') (crud.get_user_by_email (email created)) db1))
     = Some created
  /\ fst (fst (run (pg.store now') (crud.get_user_by_username (username created)) db1))
     = Some created.
Proof.
  intros Hwf Hserve. destruct (In_created EmailStr now db db1 body created Hwf Hserve)
    as [Hwf1 Hin].
  simpl. repeat split.
  - now apply first_by_id_complete.
  - now apply first_by_email_complete.
  - now apply first_by_username_complete.
Qed.

Lemma create_then_lookup_witness :
  pg.wf db_x
  /\ serve has_at 11 (POST_users body_bcd) db_x = (UserResponse 201 row_y, db_xy)
  /\ fst (fst (run (pg.store 12) (crud.get_user_by_email "b@x.com") db_xy)) = Some row_y.
Proof.
  split; [exact db_x_wf|]. split; [reflexivity|].
  exact (proj1 (proj2 (create_then_lookup has_at 11 12 db_x db_xy body_bcd row_y
                         db_x_wf eq_refl))).
Defined.

(** ** A create body sent again as an update *)

Lemma create_body_is_update_body (EmailStr : string -> bool) (body : Body.t)
  (user : UserCreate.t) :
  validate_UserCreate EmailStr body = Some user ->
  validate_UserUpdate EmailStr body = Some body.
Proof.
  unfold validate_UserCreate, validate_UserUpdate. destruct body as [e u n a]. simpl.
  destruct e as [|[e|]]; simpl; try discriminate.
  destruct (EmailStr e); try discriminate.
  destruct u as [|[u|]]; simpl; try discriminate.
  destruct (min_max_length 3 50 u); try discriminate.
  destruct n as [|[n|]]; simpl; try (intros _; reflexivity).
  destruct (min_max_length 0 100 n); [intros _; reflexivity | discriminate].
Qed.

Lemma no_change_dump (row : User) (body : Body.t) :
  Body.email body = Given (Some (email row)) ->
  Body.username body = Given (Some (username row)) ->
  (forall v, Body.full_name body = Given v -> full_name row = v) ->
  (forall v, Body.is_active body = Given v -> v = Some (is_active row)) ->
  pg.net_changes row (UserUpdate.model_dump_exclude_unset body) = [].
Proof.
  destruct row as [i e u n a c t]. destruct body as [fe fu fn fa]. simpl.
  intros -> -> Hn Ha. unfold UserUpdate.model_dump_exclude_unset, pg.net_changes.
  simpl. rewrite !String.eqb_refl. simpl.
  destruct fn as [|vn]; simpl.
  - destruct fa as [|va]; simpl; [reflexivity|].
    rewrite (Ha va eq_refl). simpl. now rewrite Bool.eqb_reflx.
  - rewrite <- (Hn vn eq_refl), option_eqb_refl. simpl.
    destruct fa as [|va]; simpl; [reflexivity|].
    rewrite (Ha va eq_refl). simpl. now rewrite Bool.eqb_reflx.
Qed.

(** X10.  The body of an accepted create, sent again as an update of the
    created user, is valid, passes both lookups against its own record and
    is answered 200 with the record as created: nothing is written and
    [updated_at] stays null. *)
Theorem create_body_replayed
  (EmailStr : string -> bool) (now now' : Z) (db db1 : pg.DB) (body : Body.t)
  (created : User) :
  pg.wf db ->
  serve EmailStr now (POST_users body) db = (UserResponse 201 created, db1) ->
  serve EmailStr now' (PUT_user (id created) body) db1 = (UserResponse 200 created, db1).
Proof.
  intros Hwf Hserve.
  destruct (In_created EmailStr now db db1 body created Hwf Hserve) as [Hwf1 Hin].
  pose proof (first_by_id_complete db1 created Hwf1 Hin) as Hid.
  destruct (wf_row_bounds db1 (id created) created Hwf1 Hid) as (Hpos & _ & _ & _).
  pose proof Hserve as Hacc. apply serve_POST_accepted in Hacc.
  destruct Hacc as (user & Hvalid & _ & _ & Hrow & _).
  destruct (validate_UserCreate_fields EmailStr body user Hvalid)
    as (Fe & Fu & Fn & _ & Fa & _).
  assert (email created = UserCreate.email user) as Ee by now rewrite Hrow.
  assert (username created = UserCreate.username user) as Eu by now rewrite Hrow.
  assert (full_name created = UserCreate.full_name user) as En by now rewrite Hrow.
  assert (is_active created = UserCreate.is_active user) as Ea by now rewrite Hrow.
  rewrite serve_PUT_user, (create_body_is_update_body EmailStr body user Hvalid), Hpos.
  rewrite dump_not_empty by (rewrite Fe; reflexivity).
  assert (truthy (UserUpdate.email body)
          && main.other (pg.first (pg.by_email (main.str (UserUpdate.email body))) db1)
                        (id created) = false) as ->.
  { unfold UserUpdate.email. rewrite Fe. simpl. rewrite <- Ee.
    rewrite (first_by_email_complete db1 created Hwf1 Hin). simpl.
    rewrite Z.eqb_refl. apply andb_false_r. }
  assert (truthy (UserUpdate.username body)
          && main.other
               (pg.first (pg.by_username (main.str (UserUpdate.username body))) db1)
               (id created) = false) as ->.
  { unfold UserUpdate.username. rewrite Fu. simpl. rewrite <- Eu.
    rewrite (first_by_username_complete db1 created Hwf1 Hin). simpl.
    rewrite Z.eqb_refl. apply andb_false_r. }
  rewrite Hid. unfold pg.update.
  rewrite no_change_dump, Hid; [reflexivity | | | | ].
  - now rewrite Ee.
  - now rewrite Eu.
  - intros v Hv. rewrite En. now apply Fn.
  - intros v Hv. rewrite Ea. now apply Fa.
Qed.

Lemma create_body_replayed_witness :
  pg.wf db_x
  /\ serve has_at 11 (POST_users body_bcd) db_x = (UserResponse 201 row_y, db_xy)
  /\ serve has_at 12 (PUT_user (id row_y) body_bcd) db_xy = (UserResponse 200 row_y, db_xy).
Proof.
  split; [exact db_x_wf|]. split; [reflexivity|].
  exact (create_body_replayed has_at 11 12 db_x db_xy body_bcd row_y db_x_wf eq_refl).
Defined.

(** ** Delete: the other rows *)

Lemma filter_other_ids (row : User) (l : list User) :
  ~ In (id row) (map id l) ->
  filter (fun r => negb (id r =? id row)) l = l.
Proof.
  induction l as [|x l IH]; simpl; intros H; [reflexivity|].
  destruct (id x =? id row) eqn:E; simpl.
  - apply Z.eqb_eq in E. elim H. now left.
  - rewrite IH; [reflexivity | tauto].
Qed.

Lemma filter_one_row (row : User) (l : list User) :
  NoDup (map id l) -> In row l ->
  S (List.length (filter (fun r => negb (id r =? id row)) l)) = List.length l.
Proof.
  induction l as [|x l IH]; simpl; intros Hnd Hin; [easy|].
  inversion Hnd as [|? ? Hx Hnd']; subst.
  destruct (id x =? id row) eqn:E; simpl.
  - apply Z.eqb_eq in E. rewrite filter_other_ids by congruence. reflexivity.
  - destruct Hin as [->|Hin]; [rewrite Z.eqb_refl in E; discriminate|].
    now rewrite <- (IH Hnd' Hin).
Qed.

(** X11.  A delete that succeeds removes exactly the row of that id: the
    table has one row less, the rows that remain are the other rows, in
    their order, and every other id still reads as before. *)
Theorem delete_removes_one_row
  (EmailStr : string -> bool) (now : Z) (db : pg.DB) (user_id : Z) (row : User) :
  pg.wf db ->
  pg.first (pg.by_id user_id) db = Some row ->
  let db' := snd (serve EmailStr now (DELETE_user user_id) db) in
  pg.rows db' = filter (fun r => negb (id r =? user_id)) (pg.rows db)
  /\ Z.of_nat (List.length (pg.rows db')) + 1 = Z.of_nat (List.length (pg.rows db))
  /\ (forall r, In r (pg.rows db') <-> In r (pg.rows db) /\ r <> row)
  /\ (forall j now', j <> user_id ->
        serve EmailStr now' (GET_user j) db' = 
        (fst (serve EmailStr now' (GET_user j) db), db')).
Proof.
  intros Hwf Hrow db'.
  destruct (wf_row_bounds db user_id row Hwf Hrow) as (Hpos & _ & Hid & Hin).
  assert (db' = pg.delete row db) as ->.
  { unfold db'. now rewrite serve_DELETE_user, Hpos, Hrow. }
  unfold pg.delete. simpl. rewrite Hid. split; [reflexivity|]. split; [|split].
  - rewrite <- Hid. pose proof (filter_one_row row (pg.rows db) (pg.wf_id db Hwf) Hin).
    lia.
  - intros r. rewrite filter_In. split.
    + intros [Hr Hne]. split; [exact Hr|]. intros ->.
      rewrite Hid, Z.eqb_refl in Hne. discriminate.
    + intros [Hr Hne]. split; [exact Hr|].
      apply negb_true_iff, Z.eqb_neq. intros Heq. apply Hne.
      apply (NoDup_key_inj id Z.eqb Z.eqb_eq (pg.rows db)); try assumption.
      * exact (pg.wf_id db Hwf).
      * congruence.
  - intros j now' Hj. rewrite !serve_GET_user.
    destruct (j <? 1); [reflexivity|].
    unfold pg.first at 1. simpl. rewrite find_filter_other by congruence.
    fold (pg.first (pg.by_id j) db).
    destruct (pg.first (pg.by_id j) db); reflexivity.
Qed.

Lemma delete_removes_one_row_witness :
  pg.wf db_xy
  /\ pg.first (pg.by_id 1) db_xy = Some row_x
  /\ pg.rows (snd (serve has_at 12 (DELETE_user 1) db_xy)) = [row_y].
Proof.
  split; [exact db_xy_wf|]. split; [reflexivity|].
  exact (proj1 (delete_removes_one_row has_at 12 db_xy 1 row_x db_xy_wf eq_refl)).
Defined.

(** ** Delete, then create again *)




(** Two creates and a delete. *)
Lemma rows_stay_unique_witness :
  In row_y (pg.rows (snd (serve_all has_at
                            [(10, POST_users body_abc); (11, POST_users body_bcd);
                             (12, DELETE_user 1)] pg.empty)))
  /\ 1 <= id row_y.
Proof.
  split; [now left|].
  exact (proj1 (rows_stay_unique has_at
                  [(10, POST_users body_abc); (11, POST_users body_bcd);
                   (12, DELETE_user 1)] row_y row_y (or_introl eq_refl)
                  (or_introl eq_refl))).
Defined.

(** ** Ids *)

Lemma serve_all_seq (EmailStr : string -> bool) (reqs : list (Z * Request)) (db : pg.DB) :
  pg.users_id_seq db <= pg.users_id_seq (snd (serve_all EmailStr reqs db)).
Proof.
  revert db. induction reqs as [|[now req] reqs IH]; simpl; intros db; [lia|].
  pose proof (serve_seq EmailStr now req db) as H.
  destruct (serve EmailStr now req db) as [r db']. simpl in H.
  specialize (IH db'). destruct (serve_all EmailStr reqs db') as [rs db'']. simpl in *.
  lia.
Qed.

(** X13.  Ids are handed out in increasing order and never again: a user
    created after another, whatever requests (deletes included) are served
    in between, has a strictly greater id. *)
Theorem ids_increase
  (EmailStr : string -> bool) (now now' : Z) (db db1 db3 : pg.DB)
  (body body' : Body.t) (first_created later_created : User)
  (reqs : list (Z * Request)) :
  serve EmailStr now (POST_users body) db = (UserResponse 201 first_created, db1) ->
  serve EmailStr now' (POST_users body') (snd (serve_all EmailStr reqs db1))
  = (UserResponse 201 later_created, db3) ->
  id first_created < id later_created.
Proof.
  intros H1 H2. apply serve_POST_accepted in H1, H2.
  destruct H1 as (u1 & _ & _ & _ & -> & ->).
  destruct H2 as (u2 & _ & _ & _ & -> & _). simpl.
  pose proof (serve_all_seq EmailStr reqs
                (pg.mkDB (pg.rows db ++
                            [mkUser (pg.users_id_seq db) (UserCreate.email u1)
                                    (UserCreate.username u1) (UserCreate.full_name u1)
                                    (UserCreate.is_active u1) now None])
                         (pg.users_id_seq db + 1))) as H.
  simpl in H. lia.
Qed.

(** Create, delete the created user, create again: the id is new. *)
Lemma ids_increase_witness :
  serve has_at 10 (POST_users body_abc) pg.empty
  = (UserResponse 201 (mkUser 1 "a@x.com" "abc" None true 10 None),
     pg.mkDB [mkUser 1 "a@x.com" "abc" None true 10 None] 2)
  /\ serve has_at 12 (POST_users body_abc)
       (snd (serve_all has_at [(11, DELETE_user 1)]
               (pg.mkDB [mkUser 1 "a@x.com" "abc" None true 10 None] 2)))
     = (UserResponse 201 (mkUser 2 "a@x.com" "abc" None true 12 None),
        pg.mkDB [mkUser 2 "a@x.com" "abc" None true 12 None] 3)
  /\ 1 < 2.
Proof.
  split; [reflexivity|]. split; [reflexivity|].
  exact (ids_increase has_at 10 12 pg.empty _ _ body_abc body_abc _ _
           [(11, DELETE_user 1)] eq_refl eq_refl).
Defined.

(** ** Update: the email a user gives up *)





(** * The helpers of the tests *)

(** ** Dictionaries *)

Lemma lookup_setitem {V} (d : dict.t V) (k k' : string) (v : V) :
  dict.lookup (dict.setitem d k v) k'
  = if (k =? k')%string then Some v else dict.lookup d k'.
Proof.
  induction d as [|[k1 v1] d IH]; simpl.
  - reflexivity.
  - destruct (k1 =? k)%string eqn:E1; simpl.
    + apply String.eqb_eq in E1. subst k1.
      now destruct (k =? k')%string.
    + rewrite IH. destruct (k1 =? k')%string eqn:E2; [|reflexivity].
      apply String.eqb_eq in E2. subst k1.
      rewrite String.eqb_sym, E1. reflexivity.
Qed.

Lemma lookup_None_keys {V} (d : dict.t V) (k : string) :
  dict.lookup d k = None <-> ~ In k (dict.keys d).
Proof.
  induction d as [|[k1 v1] d IH]; simpl.
  - split; [intros _ [] | reflexivity].
  - destruct (k1 =? k)%string eqn:E.
    + apply String.eqb_eq in E. split; [discriminate | intros H; elim H; now left].
    + apply String.eqb_neq in E. rewrite IH. tauto.
Qed.

Lemma contains_key_keys {V} (d : dict.t V) (k : string) :
  dict.contains_key d k = true <-> In k (dict.keys d).
Proof.
  unfold dict.contains_key.
  destruct (dict.lookup d k) eqn:E.
  - split; [intros _ | reflexivity].
    destruct (in_dec string_dec k (dict.keys d)) as [H|H]; [exact H|].
    apply lookup_None_keys in H. congruence.
  - apply lookup_None_keys in E. split; [discriminate | contradiction].
Qed.

Lemma lookup_In {V} (d : dict.t V) (k : string) (v : V) :
  NoDup (dict.keys d) -> In (k, v) d -> dict.lookup d k = Some v.
Proof.
  induction d as [|[k1 v1] d IH]; simpl; intros Hnd Hin; [contradiction|].
  inversion Hnd as [|? ? Hnot Hnd']; subst.
  destruct Hin as [Heq|Hin].
  - inversion Heq; subst. now rewrite String.eqb_refl.
  - destruct (k1 =? k)%string eqn:E; [|now apply IH].
    apply String.eqb_eq in E. subst k1. elim Hnot.
    change (In (fst (k, v)) (map fst d)). now apply in_map.
Qed.

Lemma lookup_update_other {V} (other d : dict.t V) (k : string) :
  dict.lookup other k = None ->
  dict.lookup (dict.update d other) k = dict.lookup d k.
Proof.
  unfold dict.update. revert d.
  induction other as [|[k1 v1] other IH]; simpl; intros d H; [reflexivity|].
  destruct (k1 =? k)%string eqn:E; [discriminate|].
  rewrite (IH _ H), lookup_setitem. cbn [fst snd]. now rewrite E.
Qed.

Lemma lookup_update_given {V} (other d : dict.t V) (k : string) (v : V) :
  NoDup (dict.keys other) -> In (k, v) other ->
  dict.lookup (dict.update d other) k = Some v.
Proof.
  unfold dict.update. revert d.
  induction other as [|[k1 v1] other IH]; simpl; intros d Hnd Hin; [contradiction|].
  inversion Hnd as [|? ? Hnot Hnd']; subst.
  destruct Hin as [Heq|Hin]; [|now apply IH].
  inversion Heq; subst.
  apply lookup_None_keys in Hnot.
  pose proof (lookup_update_other other (dict.setitem d k v) k Hnot) as H.
  unfold dict.update in H. cbn [fst snd]. rewrite H, lookup_setitem.
  now rewrite String.eqb_refl.
Qed.

Lemma keys_setitem {V} (d : dict.t V) (k : string) (v : V) :
  dict.keys (dict.setitem d k v)
  = if dict.contains_key d k then dict.keys d else dict.keys d ++ [k].
Proof.
  unfold dict.contains_key, dict.keys.
  induction d as [|[k1 v1] d IH]; simpl; [reflexivity|].
  destruct (k1 =? k)%string; simpl; [reflexivity|].
  rewrite IH. now destruct (dict.lookup d k).
Qed.

Lemma contains_key_setitem {V} (d : dict.t V) (k k' : string) (v : V) :
  dict.contains_key (dict.setitem d k v) k'
  = ((k =? k')%string || dict.contains_key d k')%bool.
Proof.
  unfold dict.contains_key. rewrite lookup_setitem.
  now destruct (k =? k')%string.
Qed.

Lemma keys_update {V} (other d : dict.t V) :
  NoDup (dict.keys other) ->
  dict.keys (dict.update d other)
  = dict.keys d
    ++ filter (fun k => negb (dict.contains_key d k)) (dict.keys other).
Proof.
  unfold dict.update. revert d.
  induction other as [|[k1 v1] other IH]; simpl; intros d Hnd.
  - now rewrite app_nil_r.
  - inversion Hnd as [|? ? Hnot Hnd']; subst.
    rewrite (IH _ Hnd'), keys_setitem. cbn [fst snd].
    destruct (dict.contains_key d k1) eqn:E; simpl.
    + f_equal. apply filter_ext. intros k. rewrite contains_key_setitem.
      destruct (k1 =? k)%string eqn:E1; [|reflexivity].
      apply String.eqb_eq in E1. subst k. now rewrite E.
    + rewrite <- app_assoc. simpl. do 2 f_equal. apply filter_ext_in.
      intros k Hk. rewrite contains_key_setitem.
      destruct (k1 =? k)%string eqn:E1; [|reflexivity].
      apply String.eqb_eq in E1. subst k. contradiction.
Qed.

Lemma py_eq_refl (v : helpers.value) : helpers.py_eq v v = true.
Proof.
  destruct v as [|b|n|s]; simpl.
  - reflexivity.
  - now destruct b.
  - apply Z.eqb_refl.
  - apply String.eqb_refl.
Qed.

(** ** Strings *)

Lemma length_append (a b : string) :
  String.length (a ++ b) = (String.length a + String.length b)%nat.
Proof. induction a as [|c a IH]; simpl; [reflexivity | now rewrite IH]. Qed.

Lemma append_inj_l (s a b : string) : (s ++ a = s ++ b)%string -> a = b.
Proof.
  induction s as [|c s IH]; simpl; intros H; [exact H|].
  inversion H. now apply IH.
Qed.

Lemma append_inj_r (s a b : string) : (a ++ s = b ++ s)%string -> a = b.
Proof.
  revert b. induction a as [|c a IH]; intros [|c' b] H; simpl in H.
  - reflexivity.
  - apply (f_equal String.length) in H. simpl in H. rewrite length_append in H. lia.
  - apply (f_equal String.length) in H. simpl in H. rewrite length_append in H. lia.
  - inversion H. f_equal. now apply IH.
Qed.

Lemma choices_length (population : string) (k : nat) (s : string) :
  helpers.choices population k s = true -> String.length s = k.
Proof.
  unfold helpers.choices. intros H. apply andb_prop in H.
  now apply Nat.eqb_eq.
Qed.

(** ** The generators *)

(** X15.  A generated username passes the length check of the schemas
    exactly when the prefix has at most 41 characters: the generator adds
    an underscore and 8 drawn characters, the schemas allow 50. *)
Theorem generated_username_fits (prefix random_string : string) :
  helpers.choices (helpers.ascii_lowercase ++ helpers.digits) 8 random_string = true ->
  required_username
    (Given (Some (helpers.generate_random_username prefix random_string)))
  = if (String.length prefix <=? 41)%nat
    then Some (helpers.generate_random_username prefix random_string)
    else None.
Proof.
  intros H. apply choices_length in H.
  unfold required_username, min_max_length, helpers.generate_random_username.
  rewrite length_append. simpl String.length. rewrite H.
  replace (3 <=? String.length prefix + 9)%nat with true
    by (symmetry; apply Nat.leb_le; lia).
  simpl andb.
  destruct (String.length prefix <=? 41)%nat eqn:E.
  - apply Nat.leb_le in E.
    replace (String.length prefix + 9 <=? 50)%nat with true
      by (symmetry; apply Nat.leb_le; lia).
    reflexivity.
  - apply Nat.leb_gt in E.
    replace (String.length prefix + 9 <=? 50)%nat with false
      by (symmetry; apply Nat.leb_gt; lia).
    reflexivity.
Qed.

Lemma generated_username_fits_witness :
  required_username (Given (Some (helpers.generate_random_username "user" "a1b2c3d4")))
  = Some "user_a1b2c3d4".
Proof.
  exact (generated_username_fits "user" "a1b2c3d4" eq_refl).
Defined.

(** X16.  Different draws give different emails and, under one prefix,
    different usernames. *)
Theorem generated_names_differ (prefix a b : string) :
  a <> b ->
  helpers.generate_random_email a <> helpers.generate_random_email b
  /\ helpers.generate_random_username prefix a
     <> helpers.generate_random_username prefix b.
Proof.
  intros Hne. unfold helpers.generate_random_email, helpers.generate_random_username.
  split; intros H; apply Hne.
  - apply append_inj_l in H. now apply append_inj_r in H.
  - now do 2 apply append_inj_l in H.
Qed.

Lemma generated_names_differ_witness :
  helpers.generate_random_email "a1b2c3d4e5" <> helpers.generate_random_email "a1b2c3d4e6"
  /\ helpers.generate_random_username "user" "a1b2c3d4e5"
     <> helpers.generate_random_username "user" "a1b2c3d4e6".
Proof.
  apply (generated_names_differ "user" "a1b2c3d4e5" "a1b2c3d4e6"). discriminate.
Defined.

(** ** The data of a test and the checks on a response *)

Lemma lookup_Some_In {V} (d : dict.t V) (k : string) (v : V) :
  dict.lookup d k = Some v -> In (k, v) d.
Proof.
  induction d as [|[k1 v1] d IH]; simpl; [discriminate|].
  destruct (k1 =? k)%string eqn:E.
  - apply String.eqb_eq in E. intros H. inversion H; subst. now left.
  - intros H. right. now apply IH.
Qed.

(** Entries the response holds up to [==] pass the check. *)
Lemma assert_user_fields_given (user_response expected_data : dict.t helpers.value) :
  (forall k v, In (k, v) expected_data -> dict.lookup user_response k = Some v) ->
  helpers.assert_user_fields user_response expected_data = None.
Proof.
  induction expected_data as [|[k v] rest IH]; simpl; intros H; [reflexivity|].
  unfold dict.get. rewrite (H k v (or_introl eq_refl)), py_eq_refl.
  apply IH. intros k' v' Hin. apply H. now right.
Qed.

(** X17.  The data of a test user: a keyword argument is the value of its
    key, a key not given keeps its default, the four default keys come
    first and in their order with the new keys after them, so the data
    always has the four fields and passes the field check against the
    keyword arguments. *)
Theorem overrides_take_precedence
  (email_draw username_draw : string) (overrides : dict.t helpers.value) :
  NoDup (dict.keys overrides) ->
  let data := helpers.create_test_user_data email_draw username_draw overrides in
  (forall k v, In (k, v) overrides -> dict.lookup data k = Some v)
  /\ (forall k, dict.contains_key overrides k = false ->
        dict.lookup data k
        = dict.lookup (helpers.create_test_user_data email_draw username_draw []) k)
  /\ dict.keys data
     = ["email"; "username"; "full_name"; "is_active"]
       ++ filter (fun k => negb (existsb (String.eqb k)
                                   ["email"; "username"; "full_name"; "is_active"]))
                 (dict.keys overrides)
  /\ helpers.assert_response_has_fields
       data ["email"; "username"; "full_name"; "is_active"] = None
  /\ helpers.assert_user_fields data overrides = None.
Proof.
  intros Hnd data.
  assert (forall k v, In (k, v) overrides -> dict.lookup data k = Some v) as Hgiven.
  { intros k v Hin. now apply lookup_update_given. }
  assert (dict.keys data
          = ["email"; "username"; "full_name"; "is_active"]
            ++ filter (fun k => negb (existsb (String.eqb k)
                                        ["email"; "username"; "full_name"; "is_active"]))
                      (dict.keys overrides)) as Hkeys.
  { unfold data, helpers.create_test_user_data. rewrite (keys_update _ _ Hnd).
    cbn [dict.keys map fst]. f_equal. apply filter_ext. intros k.
    unfold dict.contains_key. cbn [dict.lookup existsb].
    rewrite (String.eqb_sym k "email"), (String.eqb_sym k "username"),
            (String.eqb_sym k "full_name"), (String.eqb_sym k "is_active").
    destruct ("email" =? k)%string; [reflexivity|].
    destruct ("username" =? k)%string; [reflexivity|].
    destruct ("full_name" =? k)%string; [reflexivity|].
    destruct ("is_active" =? k)%string; reflexivity. }
  split; [exact Hgiven|]. split; [|split; [exact Hkeys|split]].
  - intros k Hk. unfold dict.contains_key in Hk.
    destruct (dict.lookup overrides k) eqn:E; [discriminate|].
    unfold data, helpers.create_test_user_data.
    now rewrite (lookup_update_other overrides _ k E).
  - unfold helpers.assert_response_has_fields.
    assert (forall k, In k ["email"; "username"; "full_name"; "is_active"] ->
                      dict.contains_key data k = true) as Hin.
    { intros k Hk. apply contains_key_keys. rewrite Hkeys. apply in_or_app. now left. }
    cbn [filter].
    rewrite (Hin "email"), (Hin "username"), (Hin "full_name"), (Hin "is_active");
      simpl; tauto.
  - now apply assert_user_fields_given.
Qed.

Lemma overrides_take_precedence_witness :
  dict.keys (helpers.create_test_user_data "a1b2c3d4e5" "a1b2c3d4"
               [("full_name", helpers.VStr "John Doe"); ("age", helpers.VInt 30)])
  = ["email"; "username"; "full_name"; "is_active"; "age"]
  /\ helpers.assert_user_fields
       (helpers.create_test_user_data "a1b2c3d4e5" "a1b2c3d4"
          [("full_name", helpers.VStr "John Doe"); ("age", helpers.VInt 30)])
       [("full_name", helpers.VStr "John Doe"); ("age", helpers.VInt 30)]
     = None.
Proof.
  assert (NoDup (dict.keys [("full_name", helpers.VStr "John Doe");
                            ("age", helpers.VInt 30)])) as Hnd.
  { repeat constructor; simpl; intuition discriminate. }
  split.
  - exact (proj1 (proj2 (proj2 (overrides_take_precedence "a1b2c3d4e5" "a1b2c3d4" _ Hnd)))).
  - exact (proj2 (proj2 (proj2 (proj2
             (overrides_take_precedence "a1b2c3d4e5" "a1b2c3d4" _ Hnd))))).
Defined.

(** X18.  [assert_user_fields] returns exactly when every expected entry
    is met: the response holds the key with a value that [==] the
    expected one, or the response lacks the key and [None] is expected.
    Keys of the response that are not expected play no part. *)
Theorem assert_user_fields_passes
  (user_response expected_data : dict.t helpers.value) :
  helpers.assert_user_fields user_response expected_data = None
  <-> (forall key expected_value,
         In (key, expected_value) expected_data ->
         match dict.lookup user_response key with
         | Some actual_value => helpers.py_eq actual_value expected_value = true
         | None => expected_value = helpers.VNone
         end).
Proof.
  induction expected_data as [|[k v] rest IH]; simpl.
  - split; [intros _ ? ? [] | reflexivity].
  - unfold dict.get.
    assert (helpers.py_eq match dict.lookup user_response k with
                          | Some a => a
                          | None => helpers.VNone
                          end v = true
            <-> match dict.lookup user_response k with
                | Some a => helpers.py_eq a v = true
                | None => v = helpers.VNone
                end) as Hk.
    { destruct (dict.lookup user_response k) as [a|]; [reflexivity|].
      destruct v; simpl; split; congruence. }
    destruct (helpers.py_eq _ v) eqn:E.
    + rewrite IH. split.
      * intros H key ev [Heq|Hin]; [|now apply H].
        inversion Heq; subst. now apply Hk.
      * intros H key ev Hin. apply H. now right.
    + split; [discriminate|]. intros H.
      pose proof (H k v (or_introl eq_refl)) as Hkv.
      apply Hk in Hkv. congruence.
Qed.

(** * The load script *)

(** ** The counters *)

Lemma sum_values_setitem (d : dict.t Z) (k : string) (v : Z) :
  dict.sum_values (dict.setitem d k v) = dict.sum_values d - dict.get d k 0 + v.
Proof.
  unfold dict.sum_values, dict.get.
  induction d as [|[k1 v1] d IH]; simpl; [lia|].
  destruct (k1 =? k)%string; simpl; [lia|].
  rewrite IH. lia.
Qed.

Lemma In_setitem {V} (d : dict.t V) (k k' : string) (v v' : V) :
  In (k', v') (dict.setitem d k v) -> (k' = k /\ v' = v) \/ In (k', v') d.
Proof.
  induction d as [|[k1 v1] d IH]; simpl.
  - intros [H|[]]. inversion H. now left.
  - destruct (k1 =? k)%string eqn:E; simpl.
    + apply String.eqb_eq in E. subst k1.
      intros [H|H]; [inversion H; now left | right; now right].
    + intros [H|H]; [right; now left|].
      destruct (IH H) as [H'|H']; [now left | right; now right].
Qed.

Lemma NoDup_keys_setitem {V} (d : dict.t V) (k : string) (v : V) :
  NoDup (dict.keys d) -> NoDup (dict.keys (dict.setitem d k v)).
Proof.
  intros Hnd. rewrite keys_setitem.
  destruct (dict.contains_key d k) eqn:E; [exact Hnd|].
  assert (~ In k (dict.keys d)) as Hnot.
  { intros Hin. apply contains_key_keys in Hin. congruence. }
  clear E. induction (dict.keys d) as [|k1 l IH]; simpl.
  - constructor; [intros [] | constructor].
  - inversion Hnd as [|? ? Hk1 Hl]; subst. constructor.
    + intros Hin. apply in_app_or in Hin. destruct Hin as [Hin|[Hin|[]]].
      * contradiction.
      * apply Hnot. now left.
    + apply IH; [exact Hl|]. intros Hin. apply Hnot. now right.
Qed.

(** What one answer does to the counters. *)
Lemma account_tally (status_code : option Z) (error_label : string)
  (c : load_test.stats) (n : Z) :
  load_test.success_count c + load_test.error_count c = n
  /\ dict.sum_values (load_test.error_types c) = load_test.error_count c
  /\ NoDup (dict.keys (load_test.error_types c))
  /\ (forall key m, In (key, m) (load_test.error_types c) -> 1 <= m)
  /\ 0 <= load_test.success_count c ->
  let c' := load_test.account status_code error_label c in
  load_test.success_count c' + load_test.error_count c' = n + 1
  /\ dict.sum_values (load_test.error_types c') = load_test.error_count c'
  /\ NoDup (dict.keys (load_test.error_types c'))
  /\ (forall key m, In (key, m) (load_test.error_types c') -> 1 <= m)
  /\ 0 <= load_test.success_count c'.
Proof.
  intros (Hn & Hsum & Hnd & Hpos & Hs).
  assert (forall k, 0 <= dict.get (load_test.error_types c) k 0) as Hget.
  { intros k. unfold dict.get.
    destruct (dict.lookup (load_test.error_types c) k) as [m|] eqn:E; [|lia].
    apply lookup_Some_In in E. apply Hpos in E. lia. }
  assert (forall k,
            dict.sum_values (load_test.bump (load_test.error_types c) k)
            = load_test.error_count c + 1
            /\ NoDup (dict.keys (load_test.bump (load_test.error_types c) k))
            /\ (forall key m,
                  In (key, m) (load_test.bump (load_test.error_types c) k) -> 1 <= m))
    as Hbump.
  { intros k. unfold load_test.bump. split; [|split].
    - rewrite sum_values_setitem. lia.
    - now apply NoDup_keys_setitem.
    - intros key m Hin. apply In_setitem in Hin.
      destruct Hin as [[_ ->]|Hin]; [|now apply (Hpos key)].
      specialize (Hget k). lia. }
  unfold load_test.account.
  destruct status_code as [code|].
  - destruct ((200 <=? code) && (code <? 300))%bool; cbn.
    + repeat split; try assumption; lia.
    + destruct (Hbump (str_int code ++ "_" ++ error_label)%string) as (H1 & H2 & H3).
      repeat split; try assumption; lia.
  - cbn. destruct (Hbump "CONNECTION_ERROR") as (H1 & H2 & H3).
    repeat split; try assumption; lia.
Qed.

Lemma loop_tally (S : load_test.Server) (draws : list (string * PrimFloat.float))
  (i : Z) (c : load_test.stats) (s : load_test.conn S) (n : Z) :
  load_test.success_count c + load_test.error_count c = n
  /\ dict.sum_values (load_test.error_types c) = load_test.error_count c
  /\ NoDup (dict.keys (load_test.error_types c))
  /\ (forall key m, In (key, m) (load_test.error_types c) -> 1 <= m)
  /\ 0 <= load_test.success_count c ->
  let c' := fst (load_test.loop S i draws c s) in
  load_test.success_count c' + load_test.error_count c'
  = n + Z.of_nat (List.length draws)
  /\ dict.sum_values (load_test.error_types c') = load_test.error_count c'
  /\ NoDup (dict.keys (load_test.error_types c'))
  /\ (forall key m, In (key, m) (load_test.error_types c') -> 1 <= m)
  /\ 0 <= load_test.success_count c'.
Proof.
  revert i c s n.
  induction draws as [|[random_id error_type] draws IH]; intros i c s n Hc.
  - cbn. rewrite Z.add_0_r. exact Hc.
  - cbn [load_test.loop].
    destruct (load_test.build i random_id error_type) as [payload error_label].
    destruct (load_test.post S payload s) as [status_code s'].
    pose proof (account_tally status_code error_label c n Hc) as Hc'.
    pose proof (IH (i + 1) _ s' (n + 1) Hc') as H.
    cbn zeta in H. cbn [List.length]. rewrite Nat2Z.inj_succ.
    replace (n + Z.succ (Z.of_nat (List.length draws)))
      with (n + 1 + Z.of_nat (List.length draws)) by lia.
    exact H.
Qed.

(** X19.  Whatever the server answers and whatever is drawn, the counters
    of the script add up: successes and errors make the number of
    requests sent, the counts by error type make the number of errors,
    every type listed is listed once and was seen at least once; the run
    of [main] accounts for its 20 requests. *)
Theorem counters_add_up (S : load_test.Server) (i : Z)
  (draws : list (string * PrimFloat.float)) (draw : nat -> string * PrimFloat.float)
  (s : load_test.conn S) :
  let c := fst (load_test.loop S i draws (load_test.mkStats 0 0 []) s) in
  let c20 := fst (load_test.main S draw s) in
  load_test.success_count c + load_test.error_count c = Z.of_nat (List.length draws)
  /\ dict.sum_values (load_test.error_types c) = load_test.error_count c
  /\ NoDup (dict.keys (load_test.error_types c))
  /\ (forall key m, In (key, m) (load_test.error_types c) -> 1 <= m)
  /\ 0 <= load_test.success_count c
  /\ load_test.success_count c20 + load_test.error_count c20 = 20
  /\ dict.sum_values (load_test.error_types c20) = load_test.error_count c20.
Proof.
  assert (load_test.success_count (load_test.mkStats 0 0 [])
          + load_test.error_count (load_test.mkStats 0 0 []) = 0
          /\ dict.sum_values (load_test.error_types (load_test.mkStats 0 0 []))
             = load_test.error_count (load_test.mkStats 0 0 [])
          /\ NoDup (dict.keys (load_test.error_types (load_test.mkStats 0 0 [])))
          /\ (forall key m,
                In (key, m) (load_test.error_types (load_test.mkStats 0 0 [])) -> 1 <= m)
          /\ 0 <= load_test.success_count (load_test.mkStats 0 0 [])) as H0.
  { cbn. split; [lia|]. split; [reflexivity|]. split; [constructor|].
    split; [intros ? ? [] | lia]. }
  intros c c20.
  destruct (loop_tally S draws i _ s 0 H0) as (H1 & H2 & H3 & H4 & H5).
  destruct (loop_tally S (map draw (seq 0 load_test.total_requests)) 0 _ s 0 H0)
    as (G1 & G2 & _).
  rewrite length_map, length_seq in G1.
  repeat split; try assumption.
Qed.

(** ** The script against the application *)

Lemma validate_json (EmailStr : string -> bool) (payload : load_test.Payload.t) :
  validate_UserCreate EmailStr (load_test.json payload)
  = if (EmailStr (load_test.Payload.email payload)
        && min_max_length 3 50 (load_test.Payload.username payload)
        && min_max_length 0 100 (load_test.Payload.full_name payload))%bool
    then Some (UserCreate.mk (load_test.Payload.email payload)
                             (load_test.Payload.username payload)
                             (Some (load_test.Payload.full_name payload)) true)
    else None.
Proof.
  destruct payload as [e u f].
  unfold validate_UserCreate, load_test.json, required_email, required_username,
    optional_full_name, defaulted_is_active.
  cbn [Body.email Body.username Body.full_name Body.is_active
       load_test.Payload.email load_test.Payload.username load_test.Payload.full_name].
  destruct (EmailStr e); [|reflexivity].
  destruct (min_max_length 3 50 u); [|reflexivity].
  destruct (min_max_length 0 100 f); reflexivity.
Qed.

(** The application answers a create 201, 400 or 422, and 422 exactly to
    a body that fails the schema. *)
Lemma create_status (EmailStr : string -> bool) (now : Z) (body : Body.t) (db : pg.DB) :
  let code := load_test.status_code (fst (serve EmailStr now (POST_users body) db)) in
  match validate_UserCreate EmailStr body with
  | Some _ => code = 201 \/ code = 400
  | None => code = 422
  end.
Proof.
  cbn zeta. rewrite serve_POST_users.
  destruct (validate_UserCreate EmailStr body) as [user|]; [|reflexivity].
  destruct (pg.first (pg.by_email _) db) eqn:Fe; [now right|].
  destruct (pg.first (pg.by_username _) db) eqn:Fu; [now right|].
  rewrite (insert_accepted now user db Fe Fu). now left.
Qed.

(** The answer to the payload of an iteration, by its label. *)
Lemma api_answer (EmailStr : string -> bool) (now : Z) (db : pg.DB) (i : Z)
  (random_id : string) (error_type : PrimFloat.float) :
  EmailStr "invalid-email-without-at-sign" = false ->
  EmailStr "" = false ->
  EmailStr "duplicate@example.com" = true ->
  EmailStr ("test" ++ random_id ++ "@example.com")%string = true ->
  String.length random_id = 8%nat ->
  min_max_length 0 100 ("Test User " ++ str_int i)%string = true ->
  let built := load_test.build i random_id error_type in
  let code :=
    load_test.status_code
      (fst (serve EmailStr now (POST_users (load_test.json (fst built))) db)) in
  code = 201
  \/ ((code = 400 \/ code = 422)
      /\ In (str_int code ++ "_" ++ snd built)%string load_test.api_error_keys).
Proof.
  intros Hinvalid Hempty Hduplicate Hgenerated Hlen Hname built code.
  assert (min_max_length 3 50 ("user" ++ random_id)%string = true) as Huser.
  { unfold min_max_length. rewrite length_append, Hlen. reflexivity. }
  pose proof (create_status EmailStr now (load_test.json (fst built)) db) as Hcode.
  cbn zeta in Hcode. fold code in Hcode. rewrite validate_json in Hcode.
  unfold built, load_test.build in *.
  destruct (PrimFloat.ltb error_type _);
    [|destruct (PrimFloat.ltb error_type _);
      [|destruct (PrimFloat.ltb error_type _);
        [|destruct (PrimFloat.ltb error_type _)]]];
    cbn [fst snd load_test.Payload.email load_test.Payload.username
         load_test.Payload.full_name] in *.
  - rewrite Hinvalid in Hcode. cbn in Hcode. right. rewrite Hcode.
    split; [now right | cbn; tauto].
  - rewrite Hempty in Hcode. cbn in Hcode. right. rewrite Hcode.
    split; [now right | cbn; tauto].
  - rewrite Hgenerated in Hcode. cbn in Hcode. right. rewrite Hcode.
    split; [now right | cbn; tauto].
  - rewrite Hduplicate, Huser, Hname in Hcode. cbn in Hcode.
    destruct Hcode as [Hcode|Hcode]; [now left|]. right. rewrite Hcode.
    split; [now left | cbn; tauto].
  - rewrite Hgenerated, Huser, Hname in Hcode. cbn in Hcode.
    destruct Hcode as [Hcode|Hcode]; [now left|]. right. rewrite Hcode.
    split; [now left | cbn; tauto].
Qed.

Lemma In_bump (d : dict.t Z) (k key : string) (m : Z) :
  In (key, m) (load_test.bump d k) -> key = k \/ In (key, m) d.
Proof.
  unfold load_test.bump. intros H. apply In_setitem in H.
  destruct H as [[H _]|H]; [now left | now right].
Qed.

Lemma loop_error_keys (EmailStr : string -> bool) (clock : nat -> Z)
  (draws : list (string * PrimFloat.float)) (i : Z) (c : load_test.stats)
  (s : pg.DB * nat) :
  EmailStr "invalid-email-without-at-sign" = false ->
  EmailStr "" = false ->
  EmailStr "duplicate@example.com" = true ->
  (forall d, In d draws ->
     EmailStr ("test" ++ fst d ++ "@example.com")%string = true
     /\ String.length (fst d) = 8%nat) ->
  (forall j, i <= j < i + Z.of_nat (List.length draws) ->
     min_max_length 0 100 ("Test User " ++ str_int j)%string = true) ->
  (forall key m, In (key, m) (load_test.error_types c) ->
     In key load_test.api_error_keys) ->
  forall key m,
    In (key, m)
       (load_test.error_types
          (fst (load_test.loop (load_test.api EmailStr clock) i draws c s))) ->
    In key load_test.api_error_keys.
Proof.
  intros Hinvalid Hempty Hduplicate. revert i c s.
  induction draws as [|[random_id error_type] draws IH];
    intros i c s Hdraws Hnames Hc; [exact Hc|].
  cbn [load_test.loop].
  destruct (Hdraws (random_id, error_type) (or_introl eq_refl)) as [Hgenerated Hlen].
  cbn [fst] in Hgenerated, Hlen.
  assert (min_max_length 0 100 ("Test User " ++ str_int i)%string = true) as Hname.
  { apply Hnames. cbn [List.length]. lia. }
  pose proof (api_answer EmailStr (clock (snd s)) (fst s) i random_id error_type
                Hinvalid Hempty Hduplicate Hgenerated Hlen Hname) as Hanswer.
  cbn zeta in Hanswer.
  destruct (load_test.build i random_id error_type) as [payload error_label].
  cbn [fst snd] in Hanswer.
  cbn [load_test.api load_test.post].
  destruct (serve EmailStr (clock (snd s)) (POST_users (load_test.json payload)) (fst s))
    as [r db'].
  cbn [fst] in Hanswer.
  apply IH.
  - intros d Hd. apply Hdraws. now right.
  - intros j Hj. apply Hnames. cbn [List.length]. lia.
  - intros key m. unfold load_test.account.
    destruct Hanswer as [->|[[->| ->] Hkey]]; cbn.
    + apply Hc.
    + intros Hin. apply In_bump in Hin. destruct Hin as [->|Hin]; [exact Hkey|].
      now apply (Hc key m).
    + intros Hin. apply In_bump in Hin. destruct Hin as [->|Hin]; [exact Hkey|].
      now apply (Hc key m).
Qed.

(** X20.  The script run against the application: when [EmailStr] refuses
    the two bad emails of the script and accepts the ones it builds, the
    error types of the final statistics are among 422 for the three
    invalid kinds of payload and 400 for a duplicate email or a valid
    payload; no request fails otherwise, whatever is drawn and whatever
    the table holds. *)
Theorem load_test_error_types (EmailStr : string -> bool) (clock : nat -> Z)
  (draw : nat -> string * PrimFloat.float) (db : pg.DB) (served : nat) :
  EmailStr "invalid-email-without-at-sign" = false ->
  EmailStr "" = false ->
  EmailStr "duplicate@example.com" = true ->
  (forall random_id,
     helpers.choices (helpers.ascii_lowercase ++ helpers.digits) 8 random_id = true ->
     EmailStr ("test" ++ random_id ++ "@example.com")%string = true) ->
  (forall i,
     helpers.choices (helpers.ascii_lowercase ++ helpers.digits) 8 (fst (draw i))
     = true) ->
  forall key m,
    In (key, m)
       (load_test.error_types
          (fst (load_test.main (load_test.api EmailStr clock) draw (db, served)))) ->
    In key load_test.api_error_keys.
Proof.
  intros Hinvalid Hempty Hduplicate Hgenerated Hdraw.
  unfold load_test.main.
  apply (loop_error_keys EmailStr clock _ 0 _ (db, served) Hinvalid Hempty Hduplicate).
  - intros d Hd. apply in_map_iff in Hd. destruct Hd as (i & <- & _).
    split; [apply Hgenerated, Hdraw | exact (choices_length _ _ _ (Hdraw i))].
  - rewrite length_map, length_seq. intros j Hj.
    assert (forallb (fun n => min_max_length 0 100 ("Test User " ++ str_int (Z.of_nat n))%string)
                    (seq 0 load_test.total_requests) = true) as Hall
      by (vm_compute; reflexivity).
    rewrite forallb_forall in Hall.
    specialize (Hall (Z.to_nat j)). rewrite Z2Nat.id in Hall by lia.
    apply Hall. apply in_seq. unfold load_test.total_requests in *. lia.
  - intros ? ? [].
Qed.

Lemma load_test_error_types_witness :
  has_at "" = false
  /\ forall key m,
       In (key, m)
          (load_test.error_types
             (fst (load_test.main (load_test.api has_at Z.of_nat)
                                  load_test.draw_example (pg.empty, 0%nat)))) ->
       In key load_test.api_error_keys.
Proof.
  split; [reflexivity|].
  apply (load_test_error_types has_at Z.of_nat load_test.draw_example pg.empty 0).
  - reflexivity.
  - reflexivity.
  - reflexivity.
  - intros random_id _. exact (contains_append "@" ("test" ++ random_id)%string "example.com").
  - intros i. reflexivity.
Defined.
